(** * chacra: the recurring asynchronous tasks

    A shallow embedding of [chacra/async/recurring.py]: the repository
    poller ([poll_repos]), the purger ([purge_repos]) and the HTTP
    notifier ([callback]), followed by the properties of the build
    orchestration that the specification states about them.

    Python code that mutates the database session, the filesystem and
    the task queue is written in a small state / trace / exception
    monad ([task]) so that each definition reads like the function it
    embeds. *)

From Stdlib Require Import ZArith Bool Ascii String.
From stdpp Require Import gmap strings list fin_maps.

Local Open Scope string_scope.
Local Open Scope list_scope.
Local Open Scope Z_scope.

(** ** Python exceptions and the task monad *)

(** Transport-level failures of [requests.post]. *)
Inductive transport_error :=
| ConnectionError | Timeout | TooManyRedirects | InvalidURL | SSLError.

(** The exception classes the module catches, raises or lets through. *)
Inductive exn :=
| OSError (errno : Z)
| TypeError
| ValueError
| AttributeError
| HTTPError (status : Z)
| RequestException (k : transport_error)
| Retry (cause : exn).

(** [errno] constants used by the source or raised by the filesystem model. *)
Definition ENOENT : Z := 2.
Definition EACCES : Z := 13.
Definition ENOTDIR : Z := 20.
Definition EISDIR : Z := 21.

Inductive level := DEBUG | INFO | WARNING | ERROR.

(** The two celery tasks that build a repository. *)
Inductive builder := create_rpm_repo | create_deb_repo.

(** One call of [apply_async]. *)
Record job := Job {
  job_task : builder;
  job_args : Z;
  job_countdown : Z;
  job_queue : string
}.

(** One call of [requests.post]. *)
Record request := Request {
  req_url : string;
  req_data : string;
  req_auth : string * string;
  req_verify : bool;
  req_headers : list (string * string)
}.

(** Everything a task does to the outside world, in program order. *)
Inductive event :=
| Log (lv : level) (msg : string)
| Notify (status : string) (repo : Z)
| ApplyAsync (j : job)
| Flush
| Commit
| Post (rq : request)
| RetryRequested (cause : exn)
| Resubmit (retries : nat) (countdown : Z).

#[global] Instance transport_error_eq_dec : EqDecision transport_error.
Proof. solve_decision. Defined.
#[global] Instance exn_eq_dec : EqDecision exn.
Proof. solve_decision. Defined.
#[global] Instance level_eq_dec : EqDecision level.
Proof. solve_decision. Defined.
#[global] Instance builder_eq_dec : EqDecision builder.
Proof. solve_decision. Defined.
#[global] Instance job_eq_dec : EqDecision job.
Proof. solve_decision. Defined.
#[global] Instance request_eq_dec : EqDecision request.
Proof. solve_decision. Defined.
#[global] Instance event_eq_dec : EqDecision event.
Proof. solve_decision. Defined.

(** ** The persistence layer *)

(** Modelled from the spec: the [Repo] model class ([chacra.models]).
    A row of the [repos] table, with the columns the tasks read or
    write; [repo_type] is [None] for SQL NULL, [repo_path] is absent
    until the first successful build, [modified] is a timestamp. *)
Record Repo := mkRepo {
  repo_id : Z;
  repo_type : option string;
  needs_update : bool;
  is_queued : bool;
  is_updating : bool;
  repo_path : option string;
  modified : Z
}.

(** Modelled from the spec: the [Binary] model class.  A file reference
    owned by one Repo, [binary_repo]. *)
Record Binary := mkBinary {
  binary_id : Z;
  binary_path : string;
  binary_repo : Z
}.

#[global] Instance Repo_eq_dec : EqDecision Repo.
Proof. solve_decision. Defined.
#[global] Instance Binary_eq_dec : EqDecision Binary.
Proof. solve_decision. Defined.

Definition set_is_queued (v : bool) (r : Repo) : Repo :=
  mkRepo (repo_id r) (repo_type r) (needs_update r) v (is_updating r)
         (repo_path r) (modified r).

Definition set_type (v : option string) (r : Repo) : Repo :=
  mkRepo (repo_id r) v (needs_update r) (is_queued r) (is_updating r)
         (repo_path r) (modified r).

Record tables := mkTables {
  repos : list Repo;
  binaries : list Binary
}.

(** Nodes of the storage tree.  A [Locked] node is one the worker may
    not remove (permission denied). *)
Inductive node := File | Dir | Locked.

(** The state the tasks run against: the session (the transaction's
    working view of the tables), the committed tables, the filesystem
    and the clock. *)
Record world := mkWorld {
  session : tables;
  stored : tables;
  fs : gmap string node;
  utcnow : Z
}.

Inductive outcome (A : Type) :=
| Return (a : A)
| Raise (e : exn).
Arguments Return {A} a.
Arguments Raise {A} e.

(** A task maps a world to how it ended, the world it left and the
    events it produced. *)
Definition task (A : Type) : Type := world -> outcome A * world * list event.

#[global] Instance task_ret : MRet task :=
  fun A a w => (Return a, w, []).

#[global] Instance task_bind : MBind task :=
  fun A B k m w =>
    match m w with
    | (Return a, w1, t1) =>
        match k a w1 with (o, w2, t2) => (o, w2, t1 ++ t2) end
    | (Raise e, w1, t1) => (Raise e, w1, t1)
    end.

Definition raise {A} (e : exn) : task A := fun w => (Raise e, w, []).

(** [try: m except: h]; the handler re-raises what no clause matches. *)
Definition try_except {A} (m : task A) (h : exn -> task A) : task A :=
  fun w =>
    match m w with
    | (Return a, w1, t1) => (Return a, w1, t1)
    | (Raise e, w1, t1) =>
        match h e w1 with (o, w2, t2) => (o, w2, t1 ++ t2) end
    end.

Definition emit (e : event) : task unit := fun w => (Return tt, w, [e]).
Definition get_world : task world := fun w => (Return w, w, []).
Definition pass : task unit := mret tt.

(** [for x in l: body x]; an exception leaves the loop. *)
Fixpoint for_each {A} (l : list A) (body : A -> task unit) : task unit :=
  match l with
  | [] => mret tt
  | x :: l' => body x ;; for_each l' body
  end.

Definition logger (lv : level) (msg : string) : task unit := emit (Log lv msg).

(** *** Session primitives *)

Definition with_session (f : tables -> tables) : task unit :=
  fun w => (Return tt, mkWorld (f (session w)) (stored w) (fs w) (utcnow w), []).

(** Modelled from the spec: [Repo.query.filter(...).all()], the rows of
    the session's view that pass the filter, in table order. *)
Definition query_repos (p : Repo -> bool) : task (list Repo) :=
  fun w => (Return (List.filter p (repos (session w))), w, []).

(** Modelled from the spec: the [binaries] relationship of a Repo, the
    Binary rows it owns. *)
Definition binaries_of (i : Z) (t : tables) : list Binary :=
  List.filter (fun b => binary_repo b =? i) (binaries t).

Definition repo_binaries (r : Repo) : task (list Binary) :=
  fun w => (Return (binaries_of (repo_id r) (session w)), w, []).

(** Modelled from the spec: attribute assignment on a mapped object.
    The row with the object's primary key changes in the session. *)
Definition update_repo (i : Z) (f : Repo -> Repo) (t : tables) : tables :=
  mkTables (List.map (fun r => if repo_id r =? i then f r else r) (repos t))
           (binaries t).

Definition setattr (r : Repo) (f : Repo -> Repo) : task unit :=
  with_session (update_repo (repo_id r) f).

(** Modelled from the spec: [r.delete()] and [b.delete()], which take
    the row out of the session's view. *)
Definition delete_repo (r : Repo) : task unit :=
  with_session (fun t =>
    mkTables (List.filter (fun r' => negb (repo_id r' =? repo_id r)) (repos t))
             (binaries t)).

Definition delete_binary (b : Binary) : task unit :=
  with_session (fun t =>
    mkTables (repos t)
             (List.filter (fun b' => negb (binary_id b' =? binary_id b))
                          (binaries t))).

(** Modelled from the spec: [models.flush] and [models.commit] (the
    persistence layer, not part of this module).  A flush sends the
    pending changes inside the open transaction; a commit makes the
    session's view the stored one. *)
Definition flush : task unit := emit Flush.

Definition commit : task unit :=
  fun w => (Return tt, mkWorld (session w) (session w) (fs w) (utcnow w), [Commit]).

(** Modelled from the spec: [post_queued] and [post_deleted] of the
    package ([chacra/async/__init__.py]), which emit a fire-and-forget
    notification of the Repo's new state. *)
Definition post_queued (r : Repo) : task unit := emit (Notify "queued" (repo_id r)).
Definition post_deleted (r : Repo) : task unit := emit (Notify "deleted" (repo_id r)).

(** [task.apply_async((id,), countdown=.., queue=..)], on a queue that
    takes the job: a broker that refuses the submission is not part of
    this model. *)
Definition apply_async (b : builder) (i : Z) (cd : Z) (q : string) : task unit :=
  emit (ApplyAsync (Job b i cd q)).

(** *** The filesystem *)

(** [k] is [p] itself or lies below the directory [p]. *)
Definition under (p k : string) : bool :=
  String.eqb p k || String.prefix (p +:+ "/") k.

Definition set_fs (m : gmap string node) (w : world) : world :=
  mkWorld (session w) (stored w) m (utcnow w).

(** [os.remove(path)]: a missing path is ENOENT, a directory EISDIR,
    a node that may not be removed EACCES. *)
Definition os_remove (p : string) : task unit :=
  fun w =>
    match fs w !! p with
    | None => (Raise (OSError ENOENT), w, [])
    | Some File => (Return tt, set_fs (delete p (fs w)) w, [])
    | Some Dir => (Raise (OSError EISDIR), w, [])
    | Some Locked => (Raise (OSError EACCES), w, [])
    end.

(** Some node at [p] or below it may not be removed. *)
Definition blocked (p : string) (m : gmap string node) : bool :=
  existsb (fun kv : string * node =>
             under p kv.1 && match kv.2 with Locked => true | _ => false end)
          (map_to_list m).

(** [shutil.rmtree(path)]: a missing path is ENOENT and a file ENOTDIR.
    A directory goes with all that is below it, unless an entry in it
    (or the directory itself) may not be removed: then the call raises
    EACCES at that entry.  What went before that entry depends on the
    order in which [os.listdir] hands out the entries; the model takes
    the order that meets the blocked entry first, so that a call that
    fails has removed nothing. *)
Definition shutil_rmtree (p : string) : task unit :=
  fun w =>
    match fs w !! p with
    | None => (Raise (OSError ENOENT), w, [])
    | Some Dir =>
        if blocked p (fs w) then (Raise (OSError EACCES), w, [])
        else
          (Return tt,
           set_fs (filter (fun kv : string * node => under p kv.1 = false) (fs w)) w,
           [])
    | Some File => (Raise (OSError ENOTDIR), w, [])
    | Some Locked => (Raise (OSError EACCES), w, [])
    end.

(** ** Configuration ([pecan.conf]) *)

(** Values a configuration entry may hold, as far as [is False] and
    truthiness can tell them apart. *)
Inductive pyval := PyNone | PyBool (b : bool) | PyInt (z : Z) | PyStr (s : string).

Record Conf := mkConf {
  quiet_time : Z;
  conf_purge_repos : option pyval;
  callback_url : option string;
  callback_user : option string;
  callback_key : option string;
  callback_verify_ssl : option bool
}.

(** [x is False]. *)
Definition is_False (v : pyval) : bool :=
  match v with PyBool false => true | _ => false end.

(** Truthiness of an optional string: [None] and [''] are false. *)
Definition truthy (s : option string) : bool :=
  match s with
  | Some s' => negb (String.eqb s' "")
  | None => false
  end.

(** [r.type == t]. *)
Definition type_is (r : Repo) (t : string) : bool :=
  match repo_type r with
  | Some t' => String.eqb t' t
  | None => false
  end.

(** ** poll_repos *)

(** [filter_by(needs_update=True, is_queued=False)]. *)
Definition poll_filter (r : Repo) : bool :=
  needs_update r && negb (is_queued r).

Section Poll.

Variable conf : Conf.

(** [Repo.infer_type], a method of the model class and not of this
    module, taken as a parameter: it looks at the Repo's Binaries and
    answers a type or [None]. *)
Variable infer_type : list Binary -> option string.

(** The body of the loop of [poll_repos]. *)
Definition poll_repo (r : Repo) : task unit :=
  if is_updating r then
    pass (* continue *)
  else if needs_update r then
    logger INFO "repo %s needs to be updated/created" ;;
    setattr r (set_is_queued true) ;;
    post_queued r ;;
    (if type_is r "rpm" then
       apply_async create_rpm_repo (repo_id r) (quiet_time conf) "build_repos"
     else if type_is r "deb" then
       apply_async create_deb_repo (repo_id r) (quiet_time conf) "build_repos"
     else
       bs ← repo_binaries r;
       match infer_type bs with
       | None =>
           logger WARNING "failed to infer repository type" ;;
           logger WARNING "got a repository with an unknown type: %s"
       | Some _type =>
           logger WARNING "inferred repo type as: %s" ;;
           setattr r (set_type (Some _type))
       end) ;;
    commit
  else
    pass.

Definition poll_repos : task unit :=
  logger INFO "polling repos...." ;;
  rs ← query_repos poll_filter;
  for_each rs poll_repo ;;
  logger INFO "completed repo polling".

(** [n] cycles in a row, each on the state the previous one left. *)
Fixpoint poll_cycles (n : nat) (w : world) : world :=
  match n with
  | O => w
  | S n' => poll_cycles n' (poll_repos w).1.2
  end.

End Poll.

(** ** purge_repos *)

(** Timestamps are microseconds since the epoch, the resolution of
    [datetime]; [datetime.timedelta(weeks=n)]. *)
Definition microseconds_per_day : Z := 24 * 3600 * 1000000.
Definition timedelta_weeks (n : Z) : Z := n * 7 * microseconds_per_day.

(** [if c: m] with no [else]. *)
Definition when (c : bool) (m : task unit) : task unit :=
  if c then m else mret tt.

(** [filter(models.Repo.modified < lifespan)]. *)
Definition purge_filter (lifespan : Z) (r : Repo) : bool :=
  modified r <? lifespan.

Section Purge.

Variable conf : Conf.

(** The inner loop body: one Binary of the Repo being purged. *)
Definition purge_binary (b : Binary) : task unit :=
  try_except (os_remove (binary_path b))
    (fun err =>
       match err with
       | OSError errno =>
           (* no such file, ignore *)
           when (errno =? ENOENT) pass
       | _ => raise err
       end) ;;
  delete_binary b ;;
  flush.

(** The outer loop body: one selected Repo. *)
Definition purge_repo (r : Repo) : task unit :=
  logger INFO "repo %s is being processed for removal" ;;
  bs ← repo_binaries r;
  for_each bs purge_binary ;;
  try_except
    (match repo_path r with
     | Some p => when (truthy (repo_path r)) (shutil_rmtree p)
     | None => pass
     end)
    (fun err =>
       match err with
       | OSError errno =>
           (* no such file, ignore *)
           when (errno =? ENOENT) pass ;;
           raise err
       | _ => raise err
       end) ;;
  post_deleted r ;;
  delete_repo r ;;
  commit.

(** [getattr(pecan.conf, 'purge_repos', False) is False]. *)
Definition purge_disabled : bool :=
  is_False (default (PyBool false) (conf_purge_repos conf)).

Definition purge_repos (_now : option Z) : task unit :=
  if purge_disabled then
    logger INFO "purge_repos option is unset or explicitly disabled, will skip purge"
  else
    logger INFO "polling repos for purging...." ;;
    now ← match _now with
          | Some t => mret t
          | None => w ← get_world; mret (utcnow w)
          end;
    (* XXX Magical datetime, not user configurable *)
    let lifespan := now - timedelta_weeks 2 in
    rs ← query_repos (purge_filter lifespan);
    for_each rs purge_repo ;;
    logger INFO "completed repo purging".

End Purge.

(** ** callback *)

(** [posixpath.join]. *)
Fixpoint ends_with_sep (s : string) : bool :=
  match s with
  | EmptyString => false
  | String c EmptyString => Ascii.eqb c "/"%char
  | String _ s' => ends_with_sep s'
  end.

Definition path_join2 (path b : string) : string :=
  if String.prefix "/" b then b
  else if String.eqb path "" || ends_with_sep path then path +:+ b
  else path +:+ "/" +:+ b.

Definition os_path_join (a : string) (p : list string) : string :=
  fold_left path_join2 p a.

(** What the task function returns: [None] or [False]. *)
Inductive retval := RNone | RFalse.

(** What [requests.post] comes back with: a response (its status
    code) or a transport failure. *)
Inductive send_result := Responded (status : Z) | Failed (k : transport_error).

(** The request a bound task ([bind=True]) runs for, [self.request]:
    how many times it has been retried so far and whether the function
    was called directly rather than by a worker. *)
Record Context := mkContext {
  request_retries : nat;
  called_directly : bool
}.

(** The options of the task: [default_retry_delay=30] from the
    decorator, and celery's default for [max_retries], which the
    docstring relies on (retry 3 times). *)
Definition default_retry_delay : Z := 30.
Definition max_retries : nat := 3.

Section Callback.

Variable conf : Conf.

(** Dictionaries handed to the task and [json.dumps] on them. *)
Variable pydict : Type.
Variable json_dumps : pydict -> string + exn.

(** The remote endpoint. *)
Variable requests_post : request -> send_result.

Inductive payload := DictData (d : pydict) | StrData (s : string).

Definition conf_attr (f : Conf -> option string) : task string :=
  match f conf with
  | Some v => mret v
  | None => raise AttributeError
  end.

Definition dumps (d : pydict) : task string :=
  match json_dumps d with
  | inl s => mret s
  | inr e => raise e
  end.

Definition post (rq : request) : task Z :=
  emit (Post rq) ;;
  match requests_post rq with
  | Responded st => mret st
  | Failed k => raise (RequestException k)
  end.

(** [response.raise_for_status()]: client and server errors raise. *)
Definition raise_for_status (st : Z) : task unit :=
  if (400 <=? st) && (st <? 600) then raise (HTTPError st) else mret tt.

(** [raise self.retry(exc=exc)], celery's [Task.retry] on the bound
    task.  [RetryRequested] records the call.  A task that was called
    directly, outside a worker, gets the original exception back, and
    so does one whose retries are used up; otherwise the task is sent
    to the queue again, with one retry more on its count and the
    retry delay as countdown, and leaves through [Retry].  The queue is
    one that accepts the submission. *)
Definition retry {A} (self : Context) (exc : exn) : task A :=
  emit (RetryRequested exc) ;;
  let retries := (request_retries self + 1)%nat in
  if called_directly self then raise exc
  else if (max_retries <? retries)%nat then raise exc
  else emit (Resubmit retries default_retry_delay) ;;
       raise (Retry exc).

Definition callback (self : Context) (data : payload) (project_name : string)
           (url : option string) : task retval :=
  match
    match url with
    | Some u => Some u
    | None =>
        if negb (truthy (callback_url conf)) then None (* return *)
        else Some (os_path_join (default "" (callback_url conf))
                                [project_name; ""])
    end
  with
  | None => mret RNone
  | Some url =>
      let headers := [("Content-type", "application/json")] in
      logger DEBUG "callback for url: %s" ;;
      creds ← try_except
                (user ← conf_attr callback_user;
                 key ← conf_attr callback_key;
                 mret (Some (user, key)))
                (fun e =>
                   match e with
                   | AttributeError =>
                       logger ERROR "callback authentication information missing" ;;
                       mret None
                   | _ => raise e
                   end);
      match creds with
      | None => mret RFalse
      | Some (user, key) =>
          let verify_ssl := default true (callback_verify_ssl conf) in
          body ← match data with
                 | DictData d =>
                     try_except
                       (s ← dumps d; mret (Some s))
                       (fun e =>
                          match e with
                          | TypeError =>
                              logger ERROR "could not serialize data" ;;
                              mret None
                          | _ => raise e
                          end)
                 | StrData s => mret (Some s)
                 end;
          match body with
          | None => mret RFalse
          | Some body =>
              try_except
                (response ← post (Request url body (user, key) verify_ssl headers);
                 raise_for_status response ;;
                 mret RNone)
                (fun exc =>
                   match exc with
                   | HTTPError _ =>
                       logger WARNING "callback failed: %s" ;;
                       retry self exc
                   | _ =>
                       (* Celery eats exceptions for breakfast *)
                       logger ERROR "fatal error trying to POST callback" ;;
                       mret RNone
                   end)
          end
      end
  end.

End Callback.

Arguments DictData {pydict} d.
Arguments StrData {pydict} s.

(** ** Observations on a run *)

(** [Repo.get(i)]: the row with primary key [i]. *)
Definition find_repo (i : Z) (t : tables) : option Repo :=
  List.find (fun r => repo_id r =? i) (repos t).

(** The jobs handed to the queue, in order, and those for Repo [i]. *)
Definition submitted (t : list event) : list job :=
  omap (fun e => match e with ApplyAsync j => Some j | _ => None end) t.

Definition jobs_for (i : Z) (t : list event) : list job :=
  List.filter (fun j => job_args j =? i) (submitted t).

(** How many notifications with [status] went out for Repo [i]. *)
Definition is_notify (status : string) (i : Z) (e : event) : bool :=
  match e with
  | Notify s j => String.eqb s status && (j =? i)
  | _ => false
  end.

Definition notified (status : string) (i : Z) (t : list event) : nat :=
  length (List.filter (is_notify status i) t).

(** The requests sent and the retries asked for. *)
Definition posts (t : list event) : list request :=
  omap (fun e => match e with Post rq => Some rq | _ => None end) t.

Definition retries (t : list event) : list exn :=
  omap (fun e => match e with RetryRequested c => Some c | _ => None end) t.

(** The times the task was sent to the queue again: the retry count and
    the countdown of each. *)
Definition resubmitted (t : list event) : list (nat * Z) :=
  omap (fun e => match e with Resubmit n cd => Some (n, cd) | _ => None end) t.

(** Primary keys are unique. *)
Definition well_keyed (t : tables) : Prop :=
  NoDup (List.map repo_id (repos t)).

(** ** What a processed Repo looks like *)

Section PollEffects.

Variable conf : Conf.
Variable infer_type : list Binary -> option string.

(** The job the poller submits for a Repo of a known type. *)
Definition build_job (b : builder) (r : Repo) : job :=
  Job b (repo_id r) (quiet_time conf) "build_repos".

(** What processing [r] does to its row [x]; [bs] are its binaries. *)
Definition polled_row (r : Repo) (bs : list Binary) (x : Repo) : Repo :=
  let x1 := set_is_queued true x in
  if type_is r "rpm" || type_is r "deb" then x1
  else match infer_type bs with
       | None => x1
       | Some t => set_type (Some t) x1
       end.

(** The session after the loop body has processed [r]. *)
Definition polled (r : Repo) (s : tables) : tables :=
  update_repo (repo_id r) (polled_row r (binaries_of (repo_id r) s)) s.

(** What the loop body does between the notification and the commit. *)
Definition dispatched (r : Repo) (bs : list Binary) : list event :=
  if type_is r "rpm" then [ApplyAsync (build_job create_rpm_repo r)]
  else if type_is r "deb" then [ApplyAsync (build_job create_deb_repo r)]
  else match infer_type bs with
       | None => [Log WARNING "failed to infer repository type";
                  Log WARNING "got a repository with an unknown type: %s"]
       | Some _ => [Log WARNING "inferred repo type as: %s"]
       end.

End PollEffects.

Section CallbackReach.

Variable conf : Conf.

(** The task gets as far as preparing the body: an endpoint is known
    and the credentials are configured. *)
Definition deliverable (url : option string) : Prop :=
  (is_Some url \/ truthy (callback_url conf) = true) /\
  is_Some (callback_user conf) /\ is_Some (callback_key conf).

End CallbackReach.

(** ** Observations on whole cycles *)

(** The Repos notified with [status], in order. *)
Definition notifications (status : string) (t : list event) : list Z :=
  omap (fun e => match e with
                 | Notify s i => if String.eqb s status then Some i else None
                 | _ => None
                 end) t.

(** How many times the task committed. *)
Definition commits (t : list event) : nat :=
  length (List.filter (fun e => match e with Commit => true | _ => false end) t).

(** The rows a poll cycle works on: selected by the query and not being
    updated. *)
Definition processed (r : Repo) : bool :=
  poll_filter r && negb (is_updating r).

(** The loop body of the poller goes to work on a row iff it is not
    being updated and needs an update. *)
Definition worked (r : Repo) : bool := negb (is_updating r) && needs_update r.

(** The job a processed Repo gets, if its type is one a builder exists
    for. *)
Definition job_of (conf : Conf) (r : Repo) : option job :=
  if type_is r "rpm" then Some (build_job conf create_rpm_repo r)
  else if type_is r "deb" then Some (build_job conf create_deb_repo r)
  else None.

(** What a poll cycle may do to a row [x], giving [y]: nothing but set
    [is_queued] and write a type. *)
Definition kept (x y : Repo) : Prop :=
  repo_id y = repo_id x /\
  needs_update y = needs_update x /\
  is_updating y = is_updating x /\
  repo_path y = repo_path x /\
  modified y = modified x /\
  (is_queued x = true -> is_queued y = true).

(** The state a completed purge of [r] leaves, from the state [w1] after
    its Binaries and with [m] on disk: the row is gone and the session
    is committed. *)
Definition purged (r : Repo) (w1 : world) (m : gmap string node) : world :=
  let s := mkTables
             (List.filter (fun r' => negb (repo_id r' =? repo_id r)) (repos (session w1)))
             (binaries (session w1)) in
  mkWorld s s m (utcnow w1).

(** The disk after [os.remove] was tried on [p]: only a file goes. *)
Definition unlinked (p : string) (m : gmap string node) : gmap string node :=
  match m !! p with
  | Some File => delete p m
  | _ => m
  end.

(** The body a callback sends: a string as it is, a dictionary through
    [json.dumps]. *)
Definition body_of {pydict : Type} (json_dumps : pydict -> string + exn)
           (data : payload pydict) : string + exn :=
  match data with
  | DictData d => json_dumps d
  | StrData s => inl s
  end.

(** The URL a callback goes to. *)
Definition endpoint (conf : Conf) (project_name : string) (url : option string) : string :=
  match url with
  | Some u => u
  | None => os_path_join (default "" (callback_url conf)) [project_name; ""]
  end.

(** ** Scenarios

    The states on which the properties below are exercised: the two
    scenarios of the specification (a Repo of unknown type with one
    [x.deb] Binary; an rpm Repo polled with a quiet time of 5 seconds),
    a Repo that is being updated and one whose type cannot be
    inferred. *)

Module Scenario.

(** [suffix] ends [s]. *)
Definition ends_with (suffix s : string) : bool :=
  let n := String.length s in
  let k := String.length suffix in
  (k <=? n)%nat && String.eqb (String.substring (n - k) k s) suffix.

(** An [infer_type]: the extension of the first Binary that has a
    known one. *)
Fixpoint infer_type (bs : list Binary) : option string :=
  match bs with
  | [] => None
  | b :: bs' =>
      if ends_with ".rpm" (binary_path b) then Some "rpm"
      else if ends_with ".deb" (binary_path b) then Some "deb"
      else infer_type bs'
  end.

Definition conf : Conf :=
  mkConf 5 (Some (PyBool true)) (Some "http://ci.example/callbacks")
         (Some "admin") (Some "secret") None.

(** The same configuration without the [purge_repos] option. *)
Definition conf_no_purge : Conf :=
  mkConf 5 None (Some "http://ci.example/callbacks")
         (Some "admin") (Some "secret") None.

Definition now : Z := 1500000000000000.
Definition long_ago : Z := 1400000000000000.

Definition deb_to_infer : Repo := mkRepo 1 None true false false None long_ago.
Definition rpm_repo : Repo :=
  mkRepo 2 (Some "rpm") true false false (Some "/repos/2") long_ago.
Definition busy_repo : Repo :=
  mkRepo 3 (Some "deb") true false true (Some "/repos/3") (now - 1000).
Definition bare_repo : Repo := mkRepo 4 None true false false None (now - 1000).

Definition db : tables :=
  mkTables [deb_to_infer; rpm_repo; busy_repo; bare_repo]
           [mkBinary 10 "x.deb" 1;
            mkBinary 11 "/binaries/y.rpm" 2;
            mkBinary 12 "/binaries/z.rpm" 2].

Definition disk : gmap string node :=
  list_to_map [("x.deb", File); ("/binaries/y.rpm", File);
               ("/binaries/z.rpm", File);
               ("/repos/2", Dir); ("/repos/2/repodata", File);
               ("/repos/3", Dir)].

Definition initial : world := mkWorld db db disk now.

(** The storage directory of Repo 2 is already gone. *)
Definition missing_dir : world :=
  mkWorld db db (delete "/repos/2/repodata" (delete "/repos/2" disk)) now.

(** The file of Binary 11 may not be removed. *)
Definition locked_binary : world :=
  mkWorld db db (<["/binaries/y.rpm" := Locked]> disk) now.

(** A dictionary is given by its JSON text when it has one. *)
Definition json_dumps (d : option string) : string + exn :=
  match d with
  | Some text => inl text
  | None => inr TypeError
  end.

(** Endpoints: one that is out of service, one that cannot be reached. *)
Definition unavailable (_ : request) : send_result := Responded 503.
Definition unreachable (_ : request) : send_result := Failed ConnectionError.

(** Dictionaries with the three fates [json.dumps] has for them: one
    that serialises to [text], one that holds a value without a JSON
    encoding ([TypeError]) and one that contains itself ([ValueError],
    circular reference detected). *)
Inductive sample := Plain (text : string) | Unencodable | Circular.

Definition dumps_sample (d : sample) : string + exn :=
  match d with
  | Plain text => inl text
  | Unencodable => inr TypeError
  | Circular => inr ValueError
  end.

(** The task as a worker runs it for the first time, after its last
    retry, and called as a plain function. *)
Definition first_attempt : Context := mkContext 0 false.
Definition last_attempt : Context := mkContext 3 false.
Definition direct_call : Context := mkContext 0 true.

(** Two poll cycles in a row, then a purge, each from [initial]. *)
Definition first_cycle := poll_repos conf infer_type initial.
Definition second_cycle := poll_repos conf infer_type first_cycle.1.2.
Definition purge := purge_repos conf None initial.

(** The storage directory of Repo 2 holds an entry that may not be
    removed. *)
Definition blocked_dir : world :=
  mkWorld db db (<["/repos/2/repodata" := Locked]> disk) now.

(** Further states: a table with only the Repo that is being updated;
    a Binary owned by that Repo, which is not stale; configurations
    with the purge option set to [None] and without credentials. *)
Definition only_busy : world :=
  mkWorld (mkTables [busy_repo] []) (mkTables [busy_repo] []) disk now.

Definition fresh_binary : Binary := mkBinary 20 "/binaries/w.deb" 3.

Definition mixed_db : tables :=
  mkTables [rpm_repo; busy_repo] [mkBinary 11 "/binaries/y.rpm" 2; fresh_binary].

Definition mixed : world :=
  mkWorld mixed_db mixed_db (<["/binaries/w.deb" := File]> disk) now.

Definition conf_purge_none : Conf :=
  mkConf 5 (Some PyNone) (Some "http://ci.example/callbacks")
         (Some "admin") (Some "secret") None.

End Scenario.

(** Decide a closed decidable proposition by evaluation. *)
Ltac by_decide :=
  unfold well_keyed;
  match goal with
  | |- ?P => apply (@bool_decide_unpack P _); vm_compute; exact I
  end.

(** Unfold the monad and the primitives so that a task applied to a
    world computes. *)
Ltac step_task :=
  cbv [mbind mret task_bind task_ret raise try_except when pass logger emit
       get_world setattr with_session post_queued post_deleted repo_binaries
       query_repos delete_repo delete_binary flush commit apply_async];
  simpl.


(** * Properties *)

(** ** Rows and primary keys *)

Lemma set_is_queued_id v r : repo_id (set_is_queued v r) = repo_id r.
Proof. reflexivity. Qed.

Lemma set_type_id v r : repo_id (set_type v r) = repo_id r.
Proof. reflexivity. Qed.

Lemma find_repo_update (f : Repo -> Repo) i j t :
  (forall r, repo_id (f r) = repo_id r) ->
  find_repo j (update_repo i f t) =
  (if j =? i then f else fun r => r) <$> find_repo j t.
Proof.
  intros Hf. unfold find_repo, update_repo. simpl.
  induction (repos t) as [|r l IH]; simpl; [done|].
  destruct (Z.eqb_spec (repo_id r) i) as [Hi|Hi].
  - rewrite Hf. destruct (Z.eqb_spec (repo_id r) j) as [Hj|Hj].
    + simpl. subst. by rewrite Z.eqb_refl.
    + apply IH.
  - destruct (Z.eqb_spec (repo_id r) j) as [Hj|Hj].
    + simpl. subst j. by destruct (Z.eqb_spec (repo_id r) i).
    + apply IH.
Qed.

Lemma find_repo_update_ne (f : Repo -> Repo) i j t :
  (forall r, repo_id (f r) = repo_id r) -> j <> i ->
  find_repo j (update_repo i f t) = find_repo j t.
Proof.
  intros Hf Hne. rewrite find_repo_update by done.
  destruct (Z.eqb_spec j i); [done|]. by destruct (find_repo j t).
Qed.

Lemma find_repo_update_eq (f : Repo -> Repo) i t :
  (forall r, repo_id (f r) = repo_id r) ->
  find_repo i (update_repo i f t) = f <$> find_repo i t.
Proof. intros Hf. rewrite find_repo_update by done. by rewrite Z.eqb_refl. Qed.

Lemma update_repo_ids (f : Repo -> Repo) i t :
  (forall r, repo_id (f r) = repo_id r) ->
  List.map repo_id (repos (update_repo i f t)) = List.map repo_id (repos t).
Proof.
  intros Hf. unfold update_repo. simpl. rewrite List.map_map.
  apply List.map_ext. intros r. destruct (repo_id r =? i); [apply Hf | done].
Qed.

Lemma find_repo_Some i t r :
  find_repo i t = Some r -> r ∈ repos t /\ repo_id r = i.
Proof.
  unfold find_repo. intros H. apply List.find_some in H as [Hin Heq].
  split; [by apply list_elem_of_In | by apply Z.eqb_eq].
Qed.

Lemma find_repo_None i t :
  find_repo i t = None <-> i ∉ List.map repo_id (repos t).
Proof.
  unfold find_repo. induction (repos t) as [|r l IH]; simpl.
  - split; [intros _; apply not_elem_of_nil | done].
  - destruct (Z.eqb_spec (repo_id r) i) as [Hi|Hi].
    + split; [done|]. intros H. exfalso. apply H. subst. apply list_elem_of_here.
    + rewrite IH, not_elem_of_cons. intuition congruence.
Qed.

Lemma find_repo_keyed t r :
  well_keyed t -> r ∈ repos t -> find_repo (repo_id r) t = Some r.
Proof.
  unfold well_keyed, find_repo. induction (repos t) as [|r0 l IH]; simpl.
  - intros _ H. by apply elem_of_nil in H.
  - intros Hnd Hin. apply NoDup_cons in Hnd as [Hnotin Hnd].
    apply elem_of_cons in Hin as [->|Hin].
    + by rewrite Z.eqb_refl.
    + destruct (Z.eqb_spec (repo_id r0) (repo_id r)) as [Heq|Hne].
      * exfalso. apply Hnotin. rewrite Heq.
        apply list_elem_of_fmap_2. done.
      * by apply IH.
Qed.

(** ** The poller, one Repo at a time *)

Section PollFacts.

Variable conf : Conf.
Variable infer_type : list Binary -> option string.

Lemma update_repo_twice (f g : Repo -> Repo) i t :
  (forall r, repo_id (f r) = repo_id r) ->
  update_repo i g (update_repo i f t) = update_repo i (fun r => g (f r)) t.
Proof.
  intros Hf. unfold update_repo. simpl. f_equal. rewrite List.map_map.
  apply List.map_ext. intros r.
  destruct (Z.eqb_spec (repo_id r) i) as [Hi|Hi].
  - by rewrite Hf, Hi, Z.eqb_refl.
  - by destruct (Z.eqb_spec (repo_id r) i).
Qed.

Lemma polled_row_id r bs x : repo_id (polled_row infer_type r bs x) = repo_id x.
Proof.
  unfold polled_row.
  destruct (type_is r "rpm" || type_is r "deb"); [done|].
  by destruct (infer_type bs).
Qed.

Lemma poll_repo_skips r w :
  is_updating r = true -> poll_repo conf infer_type r w = (Return tt, w, []).
Proof. intros H. unfold poll_repo. by rewrite H. Qed.

Lemma poll_repo_idle r w :
  needs_update r = false -> poll_repo conf infer_type r w = (Return tt, w, []).
Proof.
  intros H. unfold poll_repo. rewrite H. by destruct (is_updating r).
Qed.

Lemma poll_repo_processes r w :
  is_updating r = false -> needs_update r = true ->
  poll_repo conf infer_type r w =
  (Return tt,
   mkWorld (polled infer_type r (session w)) (polled infer_type r (session w)) (fs w) (utcnow w),
   [Log INFO "repo %s needs to be updated/created"; Notify "queued" (repo_id r)]
     ++ dispatched conf infer_type r (binaries_of (repo_id r) (session w)) ++ [Commit]).
Proof.
  intros Hu Hn. unfold poll_repo, polled, polled_row, dispatched, build_job.
  rewrite Hu, Hn.
  destruct (type_is r "rpm") eqn:Hrpm; [reflexivity|].
  destruct (type_is r "deb") eqn:Hdeb; [reflexivity|].
  step_task. fold (binaries_of (repo_id r) (session w)).
  destruct (infer_type _); [|reflexivity].
  simpl. by rewrite update_repo_twice.
Qed.

Lemma find_repo_polled r s :
  find_repo (repo_id r) (polled infer_type r s) =
  polled_row infer_type r (binaries_of (repo_id r) s) <$> find_repo (repo_id r) s.
Proof. apply find_repo_update_eq, polled_row_id. Qed.

Lemma find_repo_polled_ne r j s :
  j <> repo_id r -> find_repo j (polled infer_type r s) = find_repo j s.
Proof. intros. apply find_repo_update_ne; [apply polled_row_id | done]. Qed.

Lemma polled_ids r s :
  List.map repo_id (repos (polled infer_type r s)) = List.map repo_id (repos s).
Proof. apply update_repo_ids, polled_row_id. Qed.

Lemma jobs_for_app i t1 t2 : jobs_for i (t1 ++ t2) = jobs_for i t1 ++ jobs_for i t2.
Proof. unfold jobs_for, submitted. by rewrite omap_app, List.filter_app. Qed.

Lemma notified_app s i t1 t2 :
  notified s i (t1 ++ t2) = (notified s i t1 + notified s i t2)%nat.
Proof. unfold notified. by rewrite List.filter_app, length_app. Qed.

Lemma jobs_for_dispatched_ne r bs j :
  j <> repo_id r -> jobs_for j (dispatched conf infer_type r bs) = [].
Proof.
  intros Hne. unfold dispatched, jobs_for, build_job.
  assert ((repo_id r =? j) = false) as E by (apply Z.eqb_neq; congruence).
  destruct (type_is r "rpm"); [by simpl; rewrite E|].
  destruct (type_is r "deb"); [by simpl; rewrite E|].
  by destruct (infer_type bs).
Qed.

Lemma notified_dispatched s r bs j : notified s j (dispatched conf infer_type r bs) = 0%nat.
Proof.
  unfold dispatched.
  destruct (type_is r "rpm"); [done|].
  destruct (type_is r "deb"); [done|].
  by destruct (infer_type bs).
Qed.

(** What every run of the loop body guarantees. *)
Lemma poll_repo_step r w :
  exists w1 t1,
    poll_repo conf infer_type r w = (Return tt, w1, t1) /\
    fs w1 = fs w /\ utcnow w1 = utcnow w /\
    binaries (session w1) = binaries (session w) /\
    List.map repo_id (repos (session w1)) = List.map repo_id (repos (session w)) /\
    ((w1 = w /\ t1 = []) \/ stored w1 = session w1) /\
    (forall j, j <> repo_id r ->
       find_repo j (session w1) = find_repo j (session w) /\
       jobs_for j t1 = [] /\ forall s, notified s j t1 = 0%nat).
Proof.
  destruct (is_updating r) eqn:Hu.
  { exists w, []. rewrite poll_repo_skips by done. naive_solver. }
  destruct (needs_update r) eqn:Hn.
  2: { exists w, []. rewrite poll_repo_idle by done. naive_solver. }
  eexists _, _. rewrite poll_repo_processes by done.
  split; [reflexivity|]. simpl.
  split_and!; try done.
  - apply polled_ids.
  - by right.
  - intros j Hne. split_and!.
    + by apply find_repo_polled_ne.
    + change (jobs_for j (dispatched conf infer_type r (binaries_of (repo_id r) (session w)) ++ [Commit]) = []).
      rewrite jobs_for_app, jobs_for_dispatched_ne by done. reflexivity.
    + intros s. unfold notified. simpl.
      assert ((repo_id r =? j) = false) as -> by (apply Z.eqb_neq; congruence).
      rewrite andb_false_r. fold (notified s j (dispatched conf infer_type r (binaries_of (repo_id r) (session w)) ++ [Commit])).
      by rewrite notified_app, notified_dispatched.
Qed.

Lemma for_each_cons_return {A} (body : A -> task unit) x l w w1 t1 :
  body x w = (Return tt, w1, t1) ->
  for_each (x :: l) body w =
  (let '(o, w2, t2) := for_each l body w1 in (o, w2, t1 ++ t2)).
Proof. intros H. simpl. unfold mbind, task_bind. by rewrite H. Qed.

Lemma for_each_cons_raise {A} (body : A -> task unit) x l w w1 t1 e :
  body x w = (Raise e, w1, t1) ->
  for_each (x :: l) body w = (Raise e, w1, t1).
Proof. intros H. simpl. unfold mbind, task_bind. by rewrite H. Qed.

(** ** The poller's loop *)

Lemma poll_loop_global rs w :
  exists w' t,
    for_each rs (poll_repo conf infer_type) w = (Return tt, w', t) /\
    fs w' = fs w /\ utcnow w' = utcnow w /\
    binaries (session w') = binaries (session w) /\
    List.map repo_id (repos (session w')) = List.map repo_id (repos (session w)) /\
    ((w' = w /\ t = []) \/ stored w' = session w').
Proof.
  revert w. induction rs as [|r rs IH]; intros w.
  { exists w, []. split; [reflexivity|]. naive_solver. }
  destruct (poll_repo_step r w) as (w1 & t1 & Hstep & Hfs & Hclk & Hb & Hids & Hc & _).
  destruct (IH w1) as (w' & t & Hloop & Hfs' & Hclk' & Hb' & Hids' & Hc').
  exists w', (t1 ++ t).
  rewrite (for_each_cons_return _ _ _ _ _ _ Hstep), Hloop.
  split; [reflexivity|].
  split_and!; try congruence.
  destruct Hc' as [[-> ->]|Hc']; [|by right].
  destruct Hc as [[-> ->]|Hc]; [by left | by right].
Qed.

(** A Repo whose selected rows are all being updated is left alone. *)
Lemma poll_loop_frame i rs w o w' t :
  for_each rs (poll_repo conf infer_type) w = (o, w', t) ->
  (forall r, r ∈ rs -> repo_id r = i -> is_updating r = true) ->
  find_repo i (session w') = find_repo i (session w) /\
  jobs_for i t = [] /\ forall s, notified s i t = 0%nat.
Proof.
  revert w o w' t. induction rs as [|r rs IH]; intros w o w' t Hrun Hinert.
  { simpl in Hrun. injection Hrun as <- <- <-. done. }
  destruct (poll_repo_step r w) as (w1 & t1 & Hstep & _ & _ & _ & _ & _ & Hfr).
  rewrite (for_each_cons_return _ _ _ _ _ _ Hstep) in Hrun.
  destruct (for_each rs _ w1) as [[o2 w2] t2] eqn:Hrest.
  injection Hrun as <- <- <-.
  destruct (IH _ _ _ _ Hrest) as (Hf & Hj & Hn).
  { intros r' Hin. apply Hinert. by apply elem_of_cons; right. }
  assert (find_repo i (session w1) = find_repo i (session w) /\
          jobs_for i t1 = [] /\ forall s, notified s i t1 = 0%nat) as (Hf1 & Hj1 & Hn1).
  { destruct (Z.eq_dec i (repo_id r)) as [->|Hne]; [|by apply Hfr].
    rewrite (poll_repo_skips r w) in Hstep.
    - by injection Hstep as <- <-.
    - apply Hinert; [apply list_elem_of_here | done]. }
  split_and!.
  - congruence.
  - by rewrite jobs_for_app, Hj1, Hj.
  - intros s. by rewrite notified_app, Hn1, Hn.
Qed.

(** The loop does to a processed Repo what its own iteration does. *)
Lemma poll_loop_target r rs w o w' t :
  NoDup (List.map repo_id rs) -> r ∈ rs ->
  is_updating r = false -> needs_update r = true ->
  for_each rs (poll_repo conf infer_type) w = (o, w', t) ->
  let bs := binaries_of (repo_id r) (session w) in
  find_repo (repo_id r) (session w') =
    polled_row infer_type r bs <$> find_repo (repo_id r) (session w) /\
  stored w' = session w' /\
  jobs_for (repo_id r) t = jobs_for (repo_id r) (dispatched conf infer_type r bs) /\
  notified "queued" (repo_id r) t = 1%nat.
Proof.
  intros Hnd Hin Hu Hn. revert w o w' t Hnd Hin.
  induction rs as [|r0 rs IH]; intros w o w' t Hnd Hin Hrun bs.
  { by apply elem_of_nil in Hin. }
  simpl in Hnd. apply NoDup_cons in Hnd as [Hfresh Hnd].
  apply elem_of_cons in Hin as [<-|Hin].
  - (* the head is the Repo *)
    rewrite (for_each_cons_return _ _ _ _ _ _ (poll_repo_processes r w Hu Hn)) in Hrun.
    destruct (poll_loop_global rs
                (mkWorld (polled infer_type r (session w)) (polled infer_type r (session w)) (fs w) (utcnow w)))
      as (w2 & t2 & Hrest & _ & _ & _ & _ & Hc).
    rewrite Hrest in Hrun. injection Hrun as <- <- <-.
    destruct (poll_loop_frame (repo_id r) _ _ _ _ _ Hrest) as (Hf & Hj & Hno).
    { intros r' Hr' Hid. exfalso. apply Hfresh. rewrite <- Hid.
      by apply list_elem_of_fmap_2. }
    split_and!.
    + rewrite Hf. simpl. apply find_repo_polled.
    + by destruct Hc as [[-> _]|Hc].
    + change (jobs_for (repo_id r) ((dispatched conf infer_type r bs ++ [Commit]) ++ t2) =
              jobs_for (repo_id r) (dispatched conf infer_type r bs)).
      rewrite !jobs_for_app, Hj.
      change (jobs_for (repo_id r) [Commit]) with (@nil job).
      by rewrite !app_nil_r.
    + change (notified "queued" (repo_id r)
                ([Notify "queued" (repo_id r)] ++ (dispatched conf infer_type r bs ++ [Commit]) ++ t2)
              = 1%nat).
      rewrite !notified_app, Hno, notified_dispatched.
      unfold notified. simpl. by rewrite Z.eqb_refl.
  - (* the Repo comes later *)
    assert (repo_id r <> repo_id r0) as Hne.
    { intros Heq. apply Hfresh. rewrite <- Heq. by apply list_elem_of_fmap_2. }
    destruct (poll_repo_step r0 w) as (w1 & t1 & Hstep & _ & _ & Hb & _ & _ & Hfr).
    rewrite (for_each_cons_return _ _ _ _ _ _ Hstep) in Hrun.
    destruct (for_each rs _ w1) as [[o2 w2] t2] eqn:Hrest.
    injection Hrun as <- <- <-.
    destruct (Hfr _ Hne) as (Hf1 & Hj1 & Hn1).
    destruct (IH _ _ _ _ Hnd Hin Hrest) as (Hf & Hc & Hj & Hno).
    assert (binaries_of (repo_id r) (session w1) = bs) as Hbs.
    { unfold bs, binaries_of. by rewrite Hb. }
    rewrite Hbs in Hf, Hj.
    split_and!.
    + by rewrite Hf, Hf1.
    + done.
    + by rewrite jobs_for_app, Hj1, Hj.
    + by rewrite notified_app, Hn1, Hno.
Qed.

Lemma NoDup_ids_filter (p : Repo -> bool) (l : list Repo) :
  NoDup (List.map repo_id l) -> NoDup (List.map repo_id (List.filter p l)).
Proof.
  induction l as [|r l IH]; simpl; [done|].
  intros Hnd. apply NoDup_cons in Hnd as [Hfresh Hnd].
  destruct (p r); simpl; [|by apply IH].
  apply NoDup_cons. split; [|by apply IH].
  intros Hin. apply Hfresh.
  apply list_elem_of_fmap in Hin as (x & -> & Hx).
  apply list_elem_of_In, List.filter_In in Hx as [Hx _].
  by apply list_elem_of_fmap_2, list_elem_of_In.
Qed.

(** A full cycle is the loop over the selection between two log lines. *)
Lemma poll_repos_run w :
  exists w' t,
    for_each (List.filter poll_filter (repos (session w)))
             (poll_repo conf infer_type) w = (Return tt, w', t) /\
    poll_repos conf infer_type w =
    (Return tt, w', Log INFO "polling repos...." :: t ++
                    [Log INFO "completed repo polling"]).
Proof.
  destruct (poll_loop_global (List.filter poll_filter (repos (session w))) w)
    as (w' & t & Hloop & _).
  exists w', t. split; [done|].
  unfold poll_repos. step_task. by rewrite Hloop.
Qed.

Lemma jobs_for_cycle i t :
  jobs_for i (Log INFO "polling repos...." :: t ++
              [Log INFO "completed repo polling"]) = jobs_for i t.
Proof.
  change (jobs_for i (t ++ [Log INFO "completed repo polling"]) = jobs_for i t).
  rewrite jobs_for_app. apply app_nil_r.
Qed.

Lemma notified_cycle s i t :
  notified s i (Log INFO "polling repos...." :: t ++
                [Log INFO "completed repo polling"]) = notified s i t.
Proof.
  change (notified s i (t ++ [Log INFO "completed repo polling"]) = notified s i t).
  rewrite notified_app. apply Nat.add_0_r.
Qed.

(** A cycle leaves alone every Repo it does not process. *)
Lemma poll_repos_frame i w o w' t :
  (forall x, x ∈ repos (session w) -> repo_id x = i ->
             poll_filter x = true -> is_updating x = true) ->
  poll_repos conf infer_type w = (o, w', t) ->
  o = Return tt /\
  find_repo i (session w') = find_repo i (session w) /\
  jobs_for i t = [] /\ (forall s, notified s i t = 0%nat) /\
  List.map repo_id (repos (session w')) = List.map repo_id (repos (session w)) /\
  (stored w' = stored w \/ stored w' = session w').
Proof.
  intros Hinert Hrun.
  destruct (poll_repos_run w) as (w1 & t1 & Hloop & Hcycle).
  rewrite Hcycle in Hrun. injection Hrun as <- <- <-.
  destruct (poll_loop_frame i _ _ _ _ _ Hloop) as (Hf & Hj & Hn).
  { intros x Hx Hid. apply list_elem_of_In, List.filter_In in Hx as [Hx Hsel].
    apply Hinert; [by apply list_elem_of_In | done | done]. }
  destruct (poll_loop_global (List.filter poll_filter (repos (session w))) w)
    as (w2 & t2 & Hloop' & _ & _ & _ & Hids & Hc).
  rewrite Hloop in Hloop'. injection Hloop' as <- <-.
  split_and!; try done.
  - by rewrite jobs_for_cycle.
  - intros s. by rewrite notified_cycle.
  - destruct Hc as [[-> _]|Hc]; [by left | by right].
Qed.

(** A cycle does to a selected Repo that is not being updated what
    the loop body does to it. *)
Lemma poll_repos_target r w o w' t :
  well_keyed (session w) -> r ∈ repos (session w) ->
  needs_update r = true -> is_queued r = false -> is_updating r = false ->
  poll_repos conf infer_type w = (o, w', t) ->
  let bs := binaries_of (repo_id r) (session w) in
  o = Return tt /\
  find_repo (repo_id r) (session w') = Some (polled_row infer_type r bs r) /\
  stored w' = session w' /\
  jobs_for (repo_id r) t = jobs_for (repo_id r) (dispatched conf infer_type r bs) /\
  notified "queued" (repo_id r) t = 1%nat /\
  List.map repo_id (repos (session w')) = List.map repo_id (repos (session w)).
Proof.
  intros Hk Hin Hn Hq Hu Hrun bs.
  destruct (poll_repos_run w) as (w1 & t1 & Hloop & Hcycle).
  rewrite Hcycle in Hrun. injection Hrun as <- <- <-.
  destruct (poll_loop_target r _ _ _ _ _
              (NoDup_ids_filter poll_filter _ Hk)
              ltac:(apply list_elem_of_In, List.filter_In; split;
                    [by apply list_elem_of_In | by unfold poll_filter; rewrite Hn, Hq])
              Hu Hn Hloop) as (Hf & Hc & Hj & Hno).
  destruct (poll_loop_global (List.filter poll_filter (repos (session w))) w)
    as (w2 & t2 & Hloop' & _ & _ & _ & Hids & _).
  rewrite Hloop in Hloop'. injection Hloop' as <- <-.
  split_and!; try done.
  - by rewrite Hf, (find_repo_keyed _ _ Hk Hin).
  - by rewrite jobs_for_cycle.
  - by rewrite notified_cycle.
Qed.

Lemma polled_row_queued r bs x : is_queued (polled_row infer_type r bs x) = true.
Proof.
  unfold polled_row.
  destruct (type_is r "rpm" || type_is r "deb"); [done|].
  by destruct (infer_type bs).
Qed.

(** A queued Repo is not in the next selection. *)
Lemma queued_not_selected i s r' :
  well_keyed s -> find_repo i s = Some r' -> is_queued r' = true ->
  forall x, x ∈ repos s -> repo_id x = i -> poll_filter x = false.
Proof.
  intros Hk Hf Hq x Hx Hid.
  pose proof (find_repo_keyed _ _ Hk Hx) as Hfx. rewrite Hid, Hf in Hfx.
  injection Hfx as <-. unfold poll_filter. rewrite Hq. apply andb_false_r.
Qed.

(** ** The poller's contract *)

(** C1. A Repo with [needs_update], not queued, not being updated and
    of type rpm or deb has, after one cycle, [is_queued = true] in the
    session and in the committed tables, every other field of its row
    being as before, and the cycle submitted exactly one job for it:
    the builder of its type, on the build queue, delayed by
    [quiet_time]. *)
Theorem poll_dispatches_known_type r b w o w' t :
  well_keyed (session w) -> r ∈ repos (session w) ->
  needs_update r = true -> is_queued r = false -> is_updating r = false ->
  (repo_type r = Some "rpm" /\ b = create_rpm_repo) \/
  (repo_type r = Some "deb" /\ b = create_deb_repo) ->
  poll_repos conf infer_type w = (o, w', t) ->
  let queued := mkRepo (repo_id r) (repo_type r) (needs_update r) true
                       (is_updating r) (repo_path r) (modified r) in
  o = Return tt /\
  find_repo (repo_id r) (session w') = Some queued /\
  find_repo (repo_id r) (stored w') = Some queued /\
  is_queued <$> find_repo (repo_id r) (session w') = Some true /\
  is_queued <$> find_repo (repo_id r) (stored w') = Some true /\
  jobs_for (repo_id r) t = [Job b (repo_id r) (quiet_time conf) "build_repos"].
Proof.
  intros Hk Hin Hn Hq Hu Hty Hrun queued.
  destruct (poll_repos_target r w o w' t Hk Hin Hn Hq Hu Hrun)
    as (Ho & Hf & Hc & Hj & _).
  assert (type_is r "rpm" || type_is r "deb" = true) as Hknown.
  { unfold type_is. by destruct Hty as [[-> _] | [-> _]]. }
  assert (polled_row infer_type r (binaries_of (repo_id r) (session w)) r = set_is_queued true r)
    as Hrow by (unfold polled_row; by rewrite Hknown).
  rewrite Hrow in Hf. rewrite Hc.
  split_and!; [done | done | done | by rewrite Hf | by rewrite Hf |].
  rewrite Hj. unfold dispatched, build_job, jobs_for, type_is.
  destruct Hty as [[-> ->] | [-> ->]]; simpl; by rewrite Z.eqb_refl.
Qed.

(** C3, as amended.  A selected Repo that is not being updated, whose
    type is neither rpm nor deb and cannot be inferred, comes out of
    the cycle with [is_queued] set (and committed) and every other
    field as before; no job is submitted for it. *)
Theorem poll_uninferable_only_queued r w o w' t :
  well_keyed (session w) -> r ∈ repos (session w) ->
  needs_update r = true -> is_queued r = false -> is_updating r = false ->
  type_is r "rpm" = false -> type_is r "deb" = false ->
  infer_type (binaries_of (repo_id r) (session w)) = None ->
  poll_repos conf infer_type w = (o, w', t) ->
  o = Return tt /\
  find_repo (repo_id r) (session w') = Some (set_is_queued true r) /\
  find_repo (repo_id r) (stored w') = Some (set_is_queued true r) /\
  jobs_for (repo_id r) t = [].
Proof.
  intros Hk Hin Hn Hq Hu Hrpm Hdeb Hinf Hrun.
  destruct (poll_repos_target r w o w' t Hk Hin Hn Hq Hu Hrun)
    as (Ho & Hf & Hc & Hj & _).
  unfold polled_row in Hf. unfold dispatched in Hj.
  rewrite Hrpm, Hdeb, Hinf in Hf, Hj. simpl in Hf.
  split_and!; [done | done | by rewrite Hc | done].
Qed.

(** C4, as amended.  A selected Repo that is not being updated, whose
    type is neither rpm nor deb but is inferred as [ty], comes out of
    the cycle with that type and with [is_queued] set, both
    committed, and no job submitted for it; the next cycle, run on the
    resulting state, does not touch it and submits no job for it
    either. *)
Theorem poll_inferred_type_not_dispatched r ty w o w' t o2 w2 t2 :
  well_keyed (session w) -> r ∈ repos (session w) ->
  needs_update r = true -> is_queued r = false -> is_updating r = false ->
  type_is r "rpm" = false -> type_is r "deb" = false ->
  infer_type (binaries_of (repo_id r) (session w)) = Some ty ->
  poll_repos conf infer_type w = (o, w', t) ->
  poll_repos conf infer_type w' = (o2, w2, t2) ->
  let r' := set_type (Some ty) (set_is_queued true r) in
  o = Return tt /\
  find_repo (repo_id r) (session w') = Some r' /\
  find_repo (repo_id r) (stored w') = Some r' /\
  jobs_for (repo_id r) t = [] /\
  o2 = Return tt /\
  find_repo (repo_id r) (session w2) = Some r' /\
  jobs_for (repo_id r) t2 = [].
Proof.
  intros Hk Hin Hn Hq Hu Hrpm Hdeb Hinf Hrun Hrun2 r'.
  destruct (poll_repos_target r w o w' t Hk Hin Hn Hq Hu Hrun)
    as (Ho & Hf & Hc & Hj & _ & Hids).
  unfold polled_row in Hf. unfold dispatched in Hj.
  rewrite Hrpm, Hdeb, Hinf in Hf, Hj. simpl in Hf.
  assert (well_keyed (session w')) as Hk' by (unfold well_keyed; by rewrite Hids).
  destruct (poll_repos_frame (repo_id r) w' o2 w2 t2) as (Ho2 & Hf2 & Hj2 & _); [|done|].
  { intros x Hx Hid Hsel.
    rewrite (queued_not_selected _ _ _ Hk' Hf eq_refl x Hx Hid) in Hsel. done. }
  split_and!; try done; [by rewrite Hc | by rewrite Hf2].
Qed.

(** C8. A Repo that is being updated gets no job in a cycle, whatever
    its other flags and its type, and its row is the same after the
    cycle (in the committed tables too, when it was committed). *)
Theorem poll_skips_updating r w o w' t :
  well_keyed (session w) -> r ∈ repos (session w) ->
  is_updating r = true ->
  poll_repos conf infer_type w = (o, w', t) ->
  o = Return tt /\
  jobs_for (repo_id r) t = [] /\
  (forall s, notified s (repo_id r) t = 0%nat) /\
  find_repo (repo_id r) (session w') = Some r /\
  (find_repo (repo_id r) (stored w) = Some r ->
   find_repo (repo_id r) (stored w') = Some r).
Proof.
  intros Hk Hin Hu Hrun.
  pose proof (find_repo_keyed _ _ Hk Hin) as Hfind.
  destruct (poll_repos_frame (repo_id r) w o w' t) as (Ho & Hf & Hj & Hno & _ & Hc);
    [|done|].
  { intros x Hx Hid _.
    pose proof (find_repo_keyed _ _ Hk Hx) as Hfx. rewrite Hid, Hfind in Hfx.
    by injection Hfx as <-. }
  split_and!; try done; [congruence|].
  intros Hst. destruct Hc as [-> | ->]; congruence.
Qed.

Lemma poll_cycles_S n w :
  poll_cycles conf infer_type (S n) w =
  poll_cycles conf infer_type n (poll_repos conf infer_type w).1.2.
Proof. reflexivity. Qed.

(** Once queued, a Repo stays out of every later cycle. *)
Lemma queued_stays_queued i n w r' :
  well_keyed (session w) -> find_repo i (session w) = Some r' ->
  is_queued r' = true ->
  let wn := poll_cycles conf infer_type n w in
  well_keyed (session wn) /\ find_repo i (session wn) = Some r'.
Proof.
  revert w. induction n as [|n IH]; intros w Hk Hf Hq; [done|].
  rewrite poll_cycles_S.
  destruct (poll_repos conf infer_type w) as [[o1 w1] t1] eqn:Hrun. simpl.
  destruct (poll_repos_frame i w o1 w1 t1) as (_ & Hf1 & _ & _ & Hids & _); [|done|].
  { intros x Hx Hid Hsel.
    rewrite (queued_not_selected _ _ _ Hk Hf Hq x Hx Hid) in Hsel. done. }
  apply IH; [unfold well_keyed; by rewrite Hids | congruence | done].
Qed.

(** C10. A selected Repo that is not being updated is queued by the
    cycle whatever its type: the loop body notifies "queued" first and
    commits last, around the part that depends on the type; after the
    cycle the row is queued in the session and in the committed
    tables, exactly one "queued" notification went out for it, and no
    later cycle selects it, notifies or submits a job for it. *)
Theorem poll_queues_before_type_check r w o w' t :
  well_keyed (session w) -> r ∈ repos (session w) ->
  needs_update r = true -> is_queued r = false -> is_updating r = false ->
  poll_repos conf infer_type w = (o, w', t) ->
  o = Return tt /\
  (exists r', find_repo (repo_id r) (session w') = Some r' /\
              find_repo (repo_id r) (stored w') = Some r' /\
              is_queued r' = true) /\
  notified "queued" (repo_id r) t = 1%nat /\
  (forall w0, exists mid,
      (poll_repo conf infer_type r w0).2 =
        Log INFO "repo %s needs to be updated/created"
          :: Notify "queued" (repo_id r) :: mid ++ [Commit] /\
      notified "queued" (repo_id r) mid = 0%nat /\
      stored (poll_repo conf infer_type r w0).1.2 =
        session (poll_repo conf infer_type r w0).1.2) /\
  (forall n,
      let wn := poll_cycles conf infer_type n w' in
      (forall x, x ∈ List.filter poll_filter (repos (session wn)) ->
                 repo_id x <> repo_id r) /\
      jobs_for (repo_id r) (poll_repos conf infer_type wn).2 = [] /\
      notified "queued" (repo_id r) (poll_repos conf infer_type wn).2 = 0%nat).
Proof.
  intros Hk Hin Hn Hq Hu Hrun.
  destruct (poll_repos_target r w o w' t Hk Hin Hn Hq Hu Hrun)
    as (Ho & Hf & Hc & _ & Hno & Hids).
  set (r' := polled_row infer_type r (binaries_of (repo_id r) (session w)) r) in *.
  assert (is_queued r' = true) as Hq' by apply polled_row_queued.
  assert (well_keyed (session w')) as Hk' by (unfold well_keyed; by rewrite Hids).
  split_and!; try done.
  - exists r'. by rewrite Hc.
  - intros w0. exists (dispatched conf infer_type r (binaries_of (repo_id r) (session w0))).
    rewrite poll_repo_processes by done. simpl.
    split_and!; [done | apply notified_dispatched | done].
  - intros n wn.
    destruct (queued_stays_queued (repo_id r) n w' r' Hk' Hf Hq') as (Hkn & Hfn).
    fold wn in Hkn, Hfn.
    assert (forall x, x ∈ repos (session wn) -> repo_id x = repo_id r ->
                      poll_filter x = false) as Hout
      by (by apply (queued_not_selected _ _ r')).
    destruct (poll_repos conf infer_type wn) as [[on wn'] tn] eqn:Hrunn. simpl.
    destruct (poll_repos_frame (repo_id r) wn on wn' tn) as (_ & _ & Hj & Hnn & _);
      [|done|].
    { intros x Hx Hid Hsel. rewrite (Hout x Hx Hid) in Hsel. done. }
    split_and!; [|done|done].
    intros x Hx Hid. apply list_elem_of_In, List.filter_In in Hx as [Hx Hsel].
    rewrite (Hout x) in Hsel; [done | by apply list_elem_of_In | done].
Qed.

End PollFacts.

(** ** The purger, one Repo at a time *)

Section PurgeFacts.

Variable conf : Conf.

(** Removing a Binary never raises: whatever [os.remove] answers, the
    handler falls through and the row is deleted. *)
Lemma purge_binary_run b w :
  exists m,
    purge_binary b w =
    (Return tt,
     mkWorld (mkTables (repos (session w))
                (List.filter (fun b' => negb (binary_id b' =? binary_id b))
                             (binaries (session w))))
             (stored w) m (utcnow w),
     [Flush]) /\
    m ⊆ fs w.
Proof.
  unfold purge_binary, os_remove. step_task.
  destruct (fs w !! binary_path b) as [[]|] eqn:Hp; simpl.
  - eexists. split; [reflexivity|]. apply delete_subseteq.
  - eexists. split; [reflexivity|]. done.
  - eexists. split; [reflexivity|]. done.
  - eexists. split; [reflexivity|]. done.
Qed.

(** The inner loop: every Binary of the list loses its row. *)
Lemma purge_binaries_run bs w :
  exists w' t,
    for_each bs purge_binary w = (Return tt, w', t) /\
    repos (session w') = repos (session w) /\
    stored w' = stored w /\ utcnow w' = utcnow w /\
    fs w' ⊆ fs w /\
    (forall b, b ∈ binaries (session w') <->
               b ∈ binaries (session w) /\ binary_id b ∉ List.map binary_id bs) /\
    (forall s i, notified s i t = 0%nat).
Proof.
  revert w. induction bs as [|b bs IH]; intros w.
  { exists w, []. split; [reflexivity|]. split_and!; try done.
    intros b. split; [|by intros [? _]]. intros H. split; [done|]. apply not_elem_of_nil. }
  destruct (purge_binary_run b w) as (m & Hstep & Hm).
  destruct (IH (mkWorld (mkTables (repos (session w))
                (List.filter (fun b' => negb (binary_id b' =? binary_id b))
                             (binaries (session w))))
             (stored w) m (utcnow w)))
    as (w' & t & Hloop & Hr & Hs & Hc & Hfs & Hb & Hn).
  exists w', ([Flush] ++ t).
  rewrite (for_each_cons_return _ _ _ _ _ _ Hstep), Hloop.
  split; [reflexivity|]. simpl in *.
  split_and!; try done.
  - by etrans.
  - intros b'. rewrite Hb. rewrite list_elem_of_In, List.filter_In, <- list_elem_of_In.
    rewrite not_elem_of_cons, negb_true_iff, Z.eqb_neq. tauto.
Qed.

(** What [purge_repo] has done when it returns. *)
Lemma purge_repo_returns r w w' t :
  purge_repo r w = (Return tt, w', t) ->
  repos (session w') =
    List.filter (fun r' => negb (repo_id r' =? repo_id r)) (repos (session w)) /\
  (forall b, b ∈ binaries (session w') <->
             b ∈ binaries (session w) /\
             binary_id b ∉ List.map binary_id (binaries_of (repo_id r) (session w))) /\
  stored w' = session w' /\ utcnow w' = utcnow w /\
  fs w' ⊆ fs w /\
  (forall p k, repo_path r = Some p -> p <> "" -> under p k = true ->
               fs w' !! k = None) /\
  (forall i, notified "deleted" i t = if repo_id r =? i then 1%nat else 0%nat).
Proof.
  unfold purge_repo. intros Hrun.
  destruct (purge_binaries_run (binaries_of (repo_id r) (session w)) w)
    as (w1 & t1 & Hloop & Hr & Hs & Hc & Hfs & Hb & Hn).
  revert Hrun. step_task. rewrite Hloop.
  assert (forall i,
    notified "deleted" i
      (Log INFO "repo %s is being processed for removal"
         :: t1 ++ [] ++ [Notify "deleted" (repo_id r); Commit]) =
    if repo_id r =? i then 1%nat else 0%nat) as Hcount.
  { intros i.
    change (notified "deleted" i (t1 ++ [Notify "deleted" (repo_id r); Commit]) =
            if repo_id r =? i then 1%nat else 0%nat).
    rewrite notified_app, Hn. unfold notified. simpl.
    by destruct (repo_id r =? i). }
  destruct (repo_path r) as [p|] eqn:Hp; simpl.
  - destruct (String.eqb p "") eqn:Hempty; simpl.
    + apply String.eqb_eq in Hempty as ->.
      intros Hrun. injection Hrun as <- <-. simpl.
      split_and!; try done; [by rewrite Hr | intros; congruence].
    + unfold shutil_rmtree.
      destruct (fs w1 !! p) as [[]|] eqn:Hlook; simpl; try (intros Hrun; discriminate).
      destruct (blocked p (fs w1)); simpl; intros Hrun; [discriminate|].
      injection Hrun as <- <-. simpl.
      split_and!; try done.
      * by rewrite Hr.
      * etrans; [apply map_filter_subseteq | done].
      * intros p' k [= <-] _ Hk. apply map_lookup_filter_None. right.
        intros x _. simpl. by rewrite Hk.
  - intros Hrun. injection Hrun as <- <-. simpl.
    split_and!; try done. by rewrite Hr.
Qed.

(** ** The purger's loop *)

Lemma purge_loop_returns rs w w' t :
  for_each rs purge_repo w = (Return tt, w', t) ->
  (forall x, x ∈ repos (session w') <->
             x ∈ repos (session w) /\ repo_id x ∉ List.map repo_id rs) /\
  (forall b, b ∈ binaries (session w') ->
             b ∈ binaries (session w) /\ binary_repo b ∉ List.map repo_id rs) /\
  (rs <> [] -> stored w' = session w') /\
  utcnow w' = utcnow w /\
  fs w' ⊆ fs w /\
  (forall r p k, r ∈ rs -> repo_path r = Some p -> p <> "" -> under p k = true ->
                 fs w' !! k = None) /\
  (forall i, notified "deleted" i t = count_occ Z.eq_dec (List.map repo_id rs) i).
Proof.
  revert w w' t. induction rs as [|r rs IH]; intros w w' t Hrun.
  { simpl in Hrun. injection Hrun as <- <-.
    split_and!; try done.
    - intros x. split; [|by intros [? _]]. intros H. split; [done|]. apply not_elem_of_nil.
    - intros b H. split; [done|]. apply not_elem_of_nil.
    - intros r p k H. by apply elem_of_nil in H. }
  destruct (purge_repo r w) as [[[[]|e] w1] t1] eqn:Hstep.
  2: { rewrite (for_each_cons_raise _ _ _ _ _ _ _ Hstep) in Hrun. discriminate. }
  rewrite (for_each_cons_return _ _ _ _ _ _ Hstep) in Hrun.
  destruct (for_each rs purge_repo w1) as [[o2 w2] t2] eqn:Hrest.
  injection Hrun as -> <- <-.
  destruct (purge_repo_returns _ _ _ _ Hstep) as (Hr1 & Hb1 & Hs1 & Hc1 & Hfs1 & Hp1 & Hn1).
  destruct (IH _ _ _ Hrest) as (Hr & Hb & Hs & Hc & Hfs & Hp & Hn).
  split_and!.
  - intros x. rewrite Hr, Hr1.
    rewrite list_elem_of_In, List.filter_In, <- list_elem_of_In.
    simpl. rewrite not_elem_of_cons, negb_true_iff, Z.eqb_neq. tauto.
  - intros b Hin. destruct (Hb b Hin) as [Hin1 Hnot].
    apply Hb1 in Hin1 as [Hin0 Hid]. split; [done|].
    simpl. apply not_elem_of_cons. split; [|done].
    intros Heq. apply Hid. apply list_elem_of_fmap_2.
    apply list_elem_of_In, List.filter_In. split; [by apply list_elem_of_In|].
    by apply Z.eqb_eq.
  - intros _. destruct rs as [|r2 rs]; [|by apply Hs].
    simpl in Hrest. by injection Hrest as <- <-.
  - congruence.
  - by etrans.
  - intros r' p k Hin Hpath Hne Hk. apply elem_of_cons in Hin as [->|Hin].
    + eapply lookup_weaken_None; [|exact Hfs]. by apply (Hp1 p).
    + by eapply Hp.
  - intros i. rewrite notified_app, Hn1, Hn. simpl.
    destruct (Z.eq_dec (repo_id r) i) as [->|Hne].
    + by rewrite Z.eqb_refl.
    + by apply Z.eqb_neq in Hne as ->.
Qed.

(** An enabled purge is the loop over the stale Repos. *)
Lemma purge_repos_unfold _now w :
  purge_disabled conf = false ->
  purge_repos conf _now w =
  let lifespan := default (utcnow w) _now - timedelta_weeks 2 in
  match for_each (List.filter (purge_filter lifespan) (repos (session w)))
                 purge_repo w with
  | (Return _, w1, t1) =>
      (Return tt, w1,
       Log INFO "polling repos for purging...." :: t1 ++
       [Log INFO "completed repo purging"])
  | (Raise e, w1, t1) =>
      (Raise e, w1, Log INFO "polling repos for purging...." :: t1)
  end.
Proof.
  intros Hen. unfold purge_repos. rewrite Hen.
  destruct _now as [now|]; step_task;
    by destruct (for_each _ purge_repo w) as [[[[]|e] w1] t1].
Qed.

(** C2, as amended.  With the purge enabled, a run that completes (no
    filesystem error leaves it) has processed exactly the Repos
    modified strictly before [now - 14 days]: each of them has no row
    left and no Binary row left, in the session and in the committed
    tables, its storage directory is gone from the disk with
    everything below it, and exactly one "deleted" notification went
    out for it; a Repo modified at or after that boundary keeps its row
    and gets no notification. *)
Theorem purge_removes_exactly_the_stale _now w w' t r :
  purge_disabled conf = false ->
  well_keyed (session w) ->
  purge_repos conf _now w = (Return tt, w', t) ->
  r ∈ repos (session w) ->
  let boundary := default (utcnow w) _now - 14 * microseconds_per_day in
  (modified r < boundary ->
     find_repo (repo_id r) (session w') = None /\
     find_repo (repo_id r) (stored w') = None /\
     binaries_of (repo_id r) (session w') = [] /\
     binaries_of (repo_id r) (stored w') = [] /\
     (forall p k, repo_path r = Some p -> p <> "" -> under p k = true ->
                  fs w' !! k = None) /\
     notified "deleted" (repo_id r) t = 1%nat) /\
  (boundary <= modified r ->
     r ∈ repos (session w') /\
     notified "deleted" (repo_id r) t = 0%nat).
Proof.
  intros Hen Hk Hrun Hin boundary.
  rewrite purge_repos_unfold in Hrun by done.
  change (timedelta_weeks 2) with (14 * microseconds_per_day) in Hrun.
  fold boundary in Hrun. simpl in Hrun.
  set (rs := List.filter (purge_filter boundary) (repos (session w))) in *.
  destruct (for_each rs purge_repo w) as [[[[]|e] w1] t1] eqn:Hloop; [|discriminate].
  injection Hrun as <- <-.
  destruct (purge_loop_returns _ _ _ _ Hloop) as (Hr & Hb & Hs & _ & _ & Hp & Hn).
  assert (forall i,
    notified "deleted" i (Log INFO "polling repos for purging...." :: t1 ++
                          [Log INFO "completed repo purging"]) =
    count_occ Z.eq_dec (List.map repo_id rs) i) as Hcount.
  { intros i. rewrite <- Hn.
    change (notified "deleted" i (t1 ++ [Log INFO "completed repo purging"]) =
            notified "deleted" i t1).
    rewrite notified_app. apply Nat.add_0_r. }
  assert (forall x, x ∈ rs <-> x ∈ repos (session w) /\ modified x < boundary) as Hsel.
  { intros x. unfold rs, purge_filter.
    by rewrite list_elem_of_In, List.filter_In, <- list_elem_of_In, Z.ltb_lt. }
  split.
  - intros Hstale.
    assert (r ∈ rs) as Hrs by (by apply Hsel).
    assert (repo_id r ∈ List.map repo_id rs) as Hid by (by apply list_elem_of_fmap_2).
    assert (rs <> []) as Hne by (intros E; rewrite E in Hrs; by apply elem_of_nil in Hrs).
    assert (find_repo (repo_id r) (session w1) = None) as Hgone.
    { apply find_repo_None. intros Hx.
      apply list_elem_of_fmap in Hx as (x & Hxid & Hx).
      apply Hr in Hx as [_ Hx]. by rewrite <- Hxid in Hx. }
    assert (binaries_of (repo_id r) (session w1) = []) as Hbin.
    { unfold binaries_of.
      destruct (List.filter (fun b => binary_repo b =? repo_id r)
                            (binaries (session w1))) as [|b l] eqn:Hf; [done|].
      assert (In b (b :: l)) as Hb0 by (by left).
      rewrite <- Hf in Hb0. apply List.filter_In in Hb0 as [Hb0 Hown].
      apply list_elem_of_In, Hb in Hb0 as [_ Hb0].
      apply Z.eqb_eq in Hown. by rewrite Hown in Hb0. }
    rewrite (Hs Hne). split_and!; try done.
    + intros p k. by apply Hp.
    + rewrite Hcount. apply NoDup_count_occ'; [|by apply list_elem_of_In].
      apply NoDup_ListNoDup, NoDup_ids_filter, Hk.
  - intros Hfresh. split.
    + apply Hr. split; [done|]. intros Hx.
      apply list_elem_of_fmap in Hx as (x & Hxid & Hx).
      apply Hsel in Hx as [Hx Hstale].
      pose proof (find_repo_keyed _ _ Hk Hx) as Hfx.
      rewrite <- Hxid, (find_repo_keyed _ _ Hk Hin) in Hfx.
      injection Hfx as <-. lia.
    + rewrite Hcount. apply count_occ_not_In. intros Hx.
      apply list_elem_of_In, list_elem_of_fmap in Hx as (x & Hxid & Hx).
      apply Hsel in Hx as [Hx Hstale].
      pose proof (find_repo_keyed _ _ Hk Hx) as Hfx.
      rewrite <- Hxid, (find_repo_keyed _ _ Hk Hin) in Hfx.
      injection Hfx as <-. lia.
Qed.

(** The purge of a Repo that has no storage directory completes. *)
Lemma purge_repo_without_storage r w :
  truthy (repo_path r) = false ->
  exists w' t, purge_repo r w = (Return tt, w', t).
Proof.
  intros Hpath. unfold purge_repo.
  destruct (purge_binaries_run (binaries_of (repo_id r) (session w)) w)
    as (w1 & t1 & Hloop & _).
  step_task. rewrite Hloop.
  destruct (repo_path r) as [p|]; simpl in *; [rewrite Hpath|]; simpl; eauto.
Qed.

(** So does a whole run when no stale Repo has one: the hypothesis of
    completion in the contract below is met by a family of states. *)
Lemma purge_repos_without_storage _now w :
  purge_disabled conf = false ->
  (forall r, r ∈ repos (session w) -> truthy (repo_path r) = false) ->
  exists w' t, purge_repos conf _now w = (Return tt, w', t).
Proof.
  intros Hen Hbare. rewrite purge_repos_unfold by done. simpl.
  set (rs := List.filter _ _).
  assert (forall r, r ∈ rs -> truthy (repo_path r) = false) as Hrs.
  { intros r Hr. apply Hbare.
    apply list_elem_of_In, List.filter_In in Hr as [Hr _]. by apply list_elem_of_In. }
  clearbody rs. clear Hbare.
  assert (exists w' t, for_each rs purge_repo w = (Return tt, w', t)) as (w' & t & ->);
    [|by eauto].
  revert w. induction rs as [|r rs IH]; intros w; [by eexists _, _|].
  destruct (purge_repo_without_storage r w) as (w1 & t1 & Hstep).
  { apply Hrs, list_elem_of_here. }
  destruct (IH (fun x Hx => Hrs x (list_elem_of_further _ _ _ Hx)) w1) as (w2 & t2 & Hrest).
  exists w2, (t1 ++ t2).
  by rewrite (for_each_cons_return _ _ _ _ _ _ Hstep), Hrest.
Qed.

(** C9. With the option unset or set to [False], a run of the purger
    deletes nothing and changes nothing, whatever the age of the Repos:
    it returns on the spot, leaving the world as it was, having only
    logged that the purge is skipped. *)
Theorem purge_disabled_changes_nothing _now w :
  conf_purge_repos conf = None \/ conf_purge_repos conf = Some (PyBool false) ->
  purge_repos conf _now w =
  (Return tt, w,
   [Log INFO "purge_repos option is unset or explicitly disabled, will skip purge"]).
Proof.
  intros Hoff. unfold purge_repos, purge_disabled.
  by destruct Hoff as [-> | ->].
Qed.

End PurgeFacts.

(** ** The notifier *)

Section CallbackFacts.

Variable conf : Conf.
Variable pydict : Type.
Variable json_dumps : pydict -> string + exn.
Variable requests_post : request -> send_result.

(** With no URL given and none configured the task returns at once. *)
Lemma callback_without_endpoint self data project_name w :
  truthy (callback_url conf) = false ->
  callback conf pydict json_dumps requests_post self data project_name None w =
  (Return RNone, w, []).
Proof. intros Hurl. unfold callback. by rewrite Hurl. Qed.

(** With an endpoint but without credentials the task stops before the
    payload. *)
Lemma callback_without_credentials self data project_name url w :
  is_Some url \/ truthy (callback_url conf) = true ->
  callback_user conf = None \/ callback_key conf = None ->
  callback conf pydict json_dumps requests_post self data project_name url w =
  (Return RFalse, w,
   [Log DEBUG "callback for url: %s";
    Log ERROR "callback authentication information missing"]).
Proof.
  intros Hurl Hcreds. unfold callback, conf_attr.
  assert (match url with
          | Some u => Some u
          | None => if negb (truthy (callback_url conf)) then None
                    else Some (os_path_join (default "" (callback_url conf))
                                            [project_name; ""])
          end = Some (endpoint conf project_name url)) as ->.
  { destruct url as [u|]; [done|]. destruct Hurl as [[? [=]] | ->]. done. }
  step_task.
  destruct Hcreds as [-> | ->]; [done|].
  by destruct (callback_user conf).
Qed.

(** The run once an endpoint and the credentials are there. *)
Lemma callback_deliverable self data project_name url user key w :
  is_Some url \/ truthy (callback_url conf) = true ->
  callback_user conf = Some user -> callback_key conf = Some key ->
  let rq body := Request (endpoint conf project_name url) body (user, key)
                         (default true (callback_verify_ssl conf))
                         [("Content-type", "application/json")] in
  callback conf pydict json_dumps requests_post self data project_name url w =
  match body_of json_dumps data with
  | inr TypeError =>
      (Return RFalse, w,
       [Log DEBUG "callback for url: %s"; Log ERROR "could not serialize data"])
  | inr e => (Raise e, w, [Log DEBUG "callback for url: %s"])
  | inl body =>
      match requests_post (rq body) with
      | Responded st =>
          if (400 <=? st) && (st <? 600) then
            if called_directly self || (max_retries <? request_retries self + 1)%nat then
              (Raise (HTTPError st), w,
               [Log DEBUG "callback for url: %s"; Post (rq body);
                Log WARNING "callback failed: %s"; RetryRequested (HTTPError st)])
            else
              (Raise (Retry (HTTPError st)), w,
               [Log DEBUG "callback for url: %s"; Post (rq body);
                Log WARNING "callback failed: %s"; RetryRequested (HTTPError st);
                Resubmit (request_retries self + 1) default_retry_delay])
          else
            (Return RNone, w, [Log DEBUG "callback for url: %s"; Post (rq body)])
      | Failed _ =>
          (Return RNone, w,
           [Log DEBUG "callback for url: %s"; Post (rq body);
            Log ERROR "fatal error trying to POST callback"])
      end
  end.
Proof.
  intros Hurl Hu Hk rq. unfold callback, conf_attr, dumps, post, raise_for_status, retry.
  assert (match url with
          | Some u => Some u
          | None => if negb (truthy (callback_url conf)) then None
                    else Some (os_path_join (default "" (callback_url conf))
                                            [project_name; ""])
          end = Some (endpoint conf project_name url)) as ->.
  { destruct url as [u|]; [done|]. destruct Hurl as [[? [=]] | ->]. done. }
  rewrite Hu, Hk. step_task. subst rq. simpl.
  destruct data as [d|body]; simpl.
  - destruct (json_dumps d) as [body|e]; simpl.
    + destruct (requests_post _) as [st|k]; simpl; [|done].
      destruct ((400 <=? st) && (st <? 600)); simpl; [|done].
      destruct (called_directly self); simpl; [done|].
      by destruct (max_retries <? request_retries self + 1)%nat.
    + by destruct e.
  - destruct (requests_post _) as [st|k]; simpl; [|done].
    destruct ((400 <=? st) && (st <? 600)); simpl; [|done].
    destruct (called_directly self); simpl; [done|].
    by destruct (max_retries <? request_retries self + 1)%nat.
Qed.

(** The requests of a run, as a function of what the task was given. *)
Lemma callback_posts self data project_name url w :
  posts (callback conf pydict json_dumps requests_post self data project_name url w).2 =
  match url, truthy (callback_url conf) with
  | None, false => []
  | _, _ =>
      match callback_user conf, callback_key conf, body_of json_dumps data with
      | Some user, Some key, inl body =>
          [Request (endpoint conf project_name url) body (user, key)
                   (default true (callback_verify_ssl conf))
                   [("Content-type", "application/json")]]
      | _, _, _ => []
      end
  end.
Proof.
  assert (is_Some url \/ truthy (callback_url conf) = true ->
    posts (callback conf pydict json_dumps requests_post self data project_name url w).2 =
    match callback_user conf, callback_key conf, body_of json_dumps data with
    | Some user, Some key, inl body =>
        [Request (endpoint conf project_name url) body (user, key)
                 (default true (callback_verify_ssl conf))
                 [("Content-type", "application/json")]]
    | _, _, _ => []
    end) as Hgo.
  { intros Hurl.
    destruct (callback_user conf) as [user|] eqn:Hu.
    2: { rewrite callback_without_credentials; [done | done | by left]. }
    destruct (callback_key conf) as [key|] eqn:Hk.
    2: { rewrite callback_without_credentials; [done | done | by right]. }
    rewrite (callback_deliverable self data project_name url user key w Hurl Hu Hk).
    destruct (body_of json_dumps data) as [body|e]; [|by destruct e].
    destruct (requests_post _) as [st|?]; [|done].
    destruct ((400 <=? st) && (st <? 600)); [|done].
    by destruct (called_directly self || (max_retries <? request_retries self + 1)%nat). }
  destruct url as [u|].
  - apply Hgo. left. by eexists.
  - destruct (truthy (callback_url conf)) eqn:Hurl.
    + apply Hgo. by right.
    + by rewrite callback_without_endpoint.
Qed.

(** The three ways a run can go, by what is configured. *)
Lemma callback_run_cases self data project_name url w :
  let run := callback conf pydict json_dumps requests_post self data project_name url w in
  (url = None /\ truthy (callback_url conf) = false /\ run = (Return RNone, w, [])) \/
  ((is_Some url \/ truthy (callback_url conf) = true) /\
   (callback_user conf = None \/ callback_key conf = None) /\
   run = (Return RFalse, w,
          [Log DEBUG "callback for url: %s";
           Log ERROR "callback authentication information missing"])) \/
  (exists user key,
     (is_Some url \/ truthy (callback_url conf) = true) /\
     callback_user conf = Some user /\ callback_key conf = Some key).
Proof.
  intros run.
  assert (url = None /\ truthy (callback_url conf) = false \/
          (is_Some url \/ truthy (callback_url conf) = true)) as [[-> Hurl] | Hurl].
  { destruct url as [u|]; [right; left; by eexists|].
    destruct (truthy (callback_url conf)); [right; by right | by left]. }
  { left. split_and!; [done | done |]. by apply callback_without_endpoint. }
  right.
  destruct (callback_user conf) as [user|] eqn:Hu.
  2: { left. split_and!; [done | by left |].
       apply callback_without_credentials; [done | by left]. }
  destruct (callback_key conf) as [key|] eqn:Hk.
  2: { left. split_and!; [done | by right |].
       apply callback_without_credentials; [done | by right]. }
  right. by exists user, key.
Qed.

(** C7, as amended.  [self.retry] is called exactly when the POST was
    made and answered with a client or server error status.  A task
    that a worker runs and that has been retried fewer than 3 times
    ([max_retries]) is then sent to the queue again, once, with the
    next retry count and a countdown of 30 seconds, and leaves through
    [Retry]; a task called directly or with its retries used up is not
    sent again, and the [HTTPError] itself leaves it.  When
    [json.dumps] fails no request is sent and no retry is asked for: if
    it fails with [TypeError], the failure is logged and the task
    returns [False]; any other exception of [json.dumps] leaves the
    task, and nothing is logged about it.  A transport failure of the
    POST is logged and swallowed: the task returns normally and asks
    for no retry.  The world is untouched. *)
Theorem callback_retries_only_on_http_error self data project_name url w o w' t :
  callback conf pydict json_dumps requests_post self data project_name url w = (o, w', t) ->
  (retries t <> [] <->
   exists rq st, posts t = [rq] /\ requests_post rq = Responded st /\ 400 <= st < 600) /\
  (forall rq st, posts t = [rq] -> requests_post rq = Responded st -> 400 <= st < 600 ->
     retries t = [HTTPError st] /\
     (called_directly self = false -> (request_retries self < 3)%nat ->
        o = Raise (Retry (HTTPError st)) /\
        resubmitted t = [((request_retries self + 1)%nat, 30)]) /\
     (called_directly self = true \/ (3 <= request_retries self)%nat ->
        o = Raise (HTTPError st) /\ resubmitted t = [])) /\
  (resubmitted t <> [] -> retries t <> []) /\
  (forall d e, data = DictData d -> json_dumps d = inr e ->
     posts t = [] /\ retries t = [] /\ resubmitted t = []) /\
  (forall d, data = DictData d -> json_dumps d = inr TypeError -> deliverable conf url ->
     o = Return RFalse /\ Log ERROR "could not serialize data" ∈ t) /\
  (forall d e, data = DictData d -> json_dumps d = inr e -> e <> TypeError ->
     deliverable conf url ->
     o = Raise e /\ t = [Log DEBUG "callback for url: %s"]) /\
  (forall rq k, posts t = [rq] -> requests_post rq = Failed k ->
     o = Return RNone /\ retries t = [] /\ resubmitted t = [] /\
     Log ERROR "fatal error trying to POST callback" ∈ t) /\
  w' = w.
Proof.
  intros Hrun.
  assert (forall st, (400 <=? st) && (st <? 600) = true <-> 400 <= st < 600) as Hrange
    by (intros st; rewrite andb_true_iff, Z.leb_le, Z.ltb_lt; tauto).
  destruct (callback_run_cases self data project_name url w)
    as [(-> & Hurl & Hrun') | [(Hurl & Hc & Hrun') | (user & key & Hurl & Hu & Hk)]].
  - rewrite Hrun' in Hrun. injection Hrun as <- <- <-.
    split_and!; try done.
    + split; [done | by intros (rq & st & [=] & _)].
    + intros d _ _ ([[? [=]] | Hyes] & _). congruence.
    + intros d e _ _ _ ([[? [=]] | Hyes] & _). congruence.
  - rewrite Hrun' in Hrun. injection Hrun as <- <- <-.
    assert (~ deliverable conf url) as Hnd.
    { intros (_ & [? Hu] & [? Hk]). destruct Hc; congruence. }
    split_and!; try done.
    split; [done | by intros (rq & st & [=] & _)].
  - assert (deliverable conf url) as Hd by (split_and!; [done | by eexists | by eexists]).
    rewrite (callback_deliverable self data project_name url user key w Hurl Hu Hk) in Hrun.
    simpl in Hrun.
    destruct (body_of json_dumps data) as [body|e] eqn:Hbody.
    + assert (forall d e', data = DictData d -> json_dumps d = inr e' -> False) as Hnofail.
      { intros d e' -> He'. simpl in Hbody. congruence. }
      destruct (requests_post _) as [st|k] eqn:Hpost.
      * destruct ((400 <=? st) && (st <? 600)) eqn:Hst.
        -- assert (400 <= st < 600) as Hin by (by apply Hrange).
           destruct (called_directly self) eqn:Hdirect; simpl in Hrun;
             [|destruct (max_retries <? request_retries self + 1)%nat eqn:Hcap].
           all: unfold max_retries, default_retry_delay in *.
           all: injection Hrun as <- <- <-; simpl.
           all: split_and!; try done.
           all: try (intros d e' Hdd He'; by destruct (Hnofail d e' Hdd He')).
           all: try (intros d Hdd He'; by destruct (Hnofail d _ Hdd He')).
           all: try (split; [intros _; by eexists _, st | done]).
           all: try (intros rq k [= <-] Hk'; rewrite Hpost in Hk'; done).
           all: intros rq st' [= <-] Hst' _; rewrite Hpost in Hst'; injection Hst' as <-.
           ++ split_and!; [done | by intros [=] | done].
           ++ apply Nat.ltb_lt in Hcap. split_and!; [done | | done].
              intros _ Hlt. lia.
           ++ apply Nat.ltb_ge in Hcap. split_and!; [done | done |].
              intros [[=] | Hle]. lia.
        -- injection Hrun as <- <- <-; simpl.
           split_and!; try done.
           all: try (intros d e' Hdd He'; by destruct (Hnofail d e' Hdd He')).
           all: try (intros d Hdd He'; by destruct (Hnofail d _ Hdd He')).
           all: try (intros rq k [= <-] Hk'; rewrite Hpost in Hk'; done).
           ++ split; [done|]. intros (rq & st' & [= <-] & Hst' & Hr').
              rewrite Hpost in Hst'. injection Hst' as <-. apply Hrange in Hr'. congruence.
           ++ intros rq st' [= <-] Hst' Hr'.
              rewrite Hpost in Hst'. injection Hst' as <-. apply Hrange in Hr'. congruence.
      * injection Hrun as <- <- <-; simpl.
        split_and!; try done.
        all: try (intros d e' Hdd He'; by destruct (Hnofail d e' Hdd He')).
        all: try (intros d Hdd He'; by destruct (Hnofail d _ Hdd He')).
        -- split; [done|]. intros (rq & st' & [= <-] & Hst' & _). congruence.
        -- intros rq st' [= <-] Hst' _. congruence.
        -- intros rq k' [= <-] _. split_and!; try done.
           by repeat first [apply list_elem_of_here | apply list_elem_of_further].
    + assert (forall d e', data = DictData d -> json_dumps d = inr e' -> e' = e) as Hsame.
      { intros d e' -> He'. simpl in Hbody. congruence. }
      assert (e = TypeError \/ e <> TypeError) as [-> | Hne]
        by (destruct (decide (e = TypeError)); [by left | by right]).
      * injection Hrun as <- <- <-; simpl.
        split_and!; try done.
        -- split; [done | by intros (rq & st & [=] & _)].
        -- intros d _ _ _. split; [done|].
           by repeat first [apply list_elem_of_here | apply list_elem_of_further].
        -- intros d e' Hdd He' Hne' _. by destruct (Hne' (Hsame d e' Hdd He')).
      * assert (match e with
                | TypeError =>
                    (Return RFalse, w,
                     [Log DEBUG "callback for url: %s"; Log ERROR "could not serialize data"])
                | _ => (Raise e, w, [Log DEBUG "callback for url: %s"])
                end = (@Raise retval e, w, [Log DEBUG "callback for url: %s"])) as Heq
          by (by destruct e).
        rewrite Heq in Hrun. injection Hrun as <- <- <-; simpl.
        split_and!; try done.
        -- split; [done | by intros (rq & st & [=] & _)].
        -- intros d Hdd He' _. by destruct (Hne (eq_sym (Hsame d _ Hdd He'))).
        -- intros d e' Hdd He' _ _. by rewrite (Hsame d e' Hdd He').
Qed.

End CallbackFacts.

(** ** The contract on the scenarios *)

Lemma poll_dispatches_known_type_witness :
  Scenario.first_cycle.1.1 = Return tt /\
  find_repo 2 (session Scenario.first_cycle.1.2) =
    Some (mkRepo 2 (Some "rpm") true true false (Some "/repos/2") Scenario.long_ago) /\
  find_repo 2 (stored Scenario.first_cycle.1.2) =
    Some (mkRepo 2 (Some "rpm") true true false (Some "/repos/2") Scenario.long_ago) /\
  is_queued <$> find_repo 2 (session Scenario.first_cycle.1.2) = Some true /\
  is_queued <$> find_repo 2 (stored Scenario.first_cycle.1.2) = Some true /\
  jobs_for 2 Scenario.first_cycle.2 = [Job create_rpm_repo 2 5 "build_repos"].
Proof.
  apply (poll_dispatches_known_type Scenario.conf Scenario.infer_type
           Scenario.rpm_repo create_rpm_repo Scenario.initial).
  - by_decide.
  - by_decide.
  - reflexivity.
  - reflexivity.
  - reflexivity.
  - left. split; reflexivity.
  - vm_compute. reflexivity.
Defined.

(** C3 as stated fails: Repo 4 has no type and no Binary to infer one
    from, and yet its row is not the same after the cycle. *)
Lemma poll_uninferable_is_changed :
  let r := Scenario.bare_repo in
  r ∈ repos (session Scenario.initial) /\
  needs_update r = true /\ is_queued r = false /\ is_updating r = false /\
  type_is r "rpm" = false /\ type_is r "deb" = false /\
  Scenario.infer_type (binaries_of (repo_id r) (session Scenario.initial)) = None /\
  find_repo (repo_id r) (session Scenario.first_cycle.1.2) <> Some r /\
  is_queued <$> find_repo (repo_id r) (stored Scenario.first_cycle.1.2) = Some true.
Proof.
  split; [by_decide|]. vm_compute. repeat split. discriminate.
Qed.

Lemma poll_uninferable_only_queued_witness :
  Scenario.first_cycle.1.1 = Return tt /\
  find_repo 4 (session Scenario.first_cycle.1.2) =
    Some (set_is_queued true Scenario.bare_repo) /\
  find_repo 4 (stored Scenario.first_cycle.1.2) =
    Some (set_is_queued true Scenario.bare_repo) /\
  jobs_for 4 Scenario.first_cycle.2 = [].
Proof.
  apply (poll_uninferable_only_queued Scenario.conf Scenario.infer_type
           Scenario.bare_repo Scenario.initial).
  - by_decide.
  - by_decide.
  - reflexivity.
  - reflexivity.
  - reflexivity.
  - reflexivity.
  - reflexivity.
  - reflexivity.
  - vm_compute. reflexivity.
Defined.

(** C4 as stated fails: Repo 1 gets its type inferred from [x.deb] in
    the first cycle, and the next cycle, run on the state the first one
    left, submits nothing at all. *)
Lemma poll_inferred_type_never_dispatched :
  let r := Scenario.deb_to_infer in
  r ∈ repos (session Scenario.initial) /\
  needs_update r = true /\ is_queued r = false /\ is_updating r = false /\
  type_is r "rpm" = false /\ type_is r "deb" = false /\
  Scenario.infer_type (binaries_of (repo_id r) (session Scenario.initial)) = Some "deb" /\
  repo_type <$> find_repo (repo_id r) (stored Scenario.first_cycle.1.2) = Some (Some "deb") /\
  jobs_for (repo_id r) Scenario.first_cycle.2 = [] /\
  submitted Scenario.second_cycle.2 = [].
Proof.
  split; [by_decide|]. vm_compute. repeat split.
Qed.

Lemma poll_inferred_type_not_dispatched_witness :
  let r' := set_type (Some "deb") (set_is_queued true Scenario.deb_to_infer) in
  Scenario.first_cycle.1.1 = Return tt /\
  find_repo 1 (session Scenario.first_cycle.1.2) = Some r' /\
  find_repo 1 (stored Scenario.first_cycle.1.2) = Some r' /\
  jobs_for 1 Scenario.first_cycle.2 = [] /\
  Scenario.second_cycle.1.1 = Return tt /\
  find_repo 1 (session Scenario.second_cycle.1.2) = Some r' /\
  jobs_for 1 Scenario.second_cycle.2 = [].
Proof.
  apply (poll_inferred_type_not_dispatched Scenario.conf Scenario.infer_type
           Scenario.deb_to_infer "deb" Scenario.initial).
  - by_decide.
  - by_decide.
  - reflexivity.
  - reflexivity.
  - reflexivity.
  - reflexivity.
  - reflexivity.
  - reflexivity.
  - vm_compute. reflexivity.
  - vm_compute. reflexivity.
Defined.

Lemma poll_skips_updating_witness :
  Scenario.first_cycle.1.1 = Return tt /\
  jobs_for 3 Scenario.first_cycle.2 = [] /\
  (forall s, notified s 3 Scenario.first_cycle.2 = 0%nat) /\
  find_repo 3 (session Scenario.first_cycle.1.2) = Some Scenario.busy_repo /\
  (find_repo 3 (stored Scenario.initial) = Some Scenario.busy_repo ->
   find_repo 3 (stored Scenario.first_cycle.1.2) = Some Scenario.busy_repo).
Proof.
  apply (poll_skips_updating Scenario.conf Scenario.infer_type
           Scenario.busy_repo Scenario.initial).
  - by_decide.
  - by_decide.
  - reflexivity.
  - vm_compute. reflexivity.
Defined.

Lemma poll_queues_before_type_check_witness :
  Scenario.first_cycle.1.1 = Return tt /\
  (exists r', find_repo 4 (session Scenario.first_cycle.1.2) = Some r' /\
              find_repo 4 (stored Scenario.first_cycle.1.2) = Some r' /\
              is_queued r' = true) /\
  notified "queued" 4 Scenario.first_cycle.2 = 1%nat.
Proof.
  destruct (poll_queues_before_type_check Scenario.conf Scenario.infer_type
              Scenario.bare_repo Scenario.initial
              Scenario.first_cycle.1.1 Scenario.first_cycle.1.2 Scenario.first_cycle.2)
    as (Ho & Hrow & Hone & _).
  - by_decide.
  - by_decide.
  - reflexivity.
  - reflexivity.
  - reflexivity.
  - vm_compute. reflexivity.
  - split_and!; [exact Ho | exact Hrow | exact Hone].
Defined.

(** C2 as stated fails: the purge is enabled and Repo 2 is stale, but
    an entry of its storage directory may not be removed; the error
    leaves the run, and afterwards Repo 2 still has its row, in the
    session and in the committed tables, its directory is still on
    disk and no "deleted" notification went out for it. *)
Lemma purge_blocked_directory_keeps_repo :
  let run := purge_repos Scenario.conf None Scenario.blocked_dir in
  purge_disabled Scenario.conf = false /\
  Scenario.rpm_repo ∈ repos (session Scenario.blocked_dir) /\
  modified Scenario.rpm_repo <
    utcnow Scenario.blocked_dir - 14 * microseconds_per_day /\
  run.1.1 = Raise (OSError EACCES) /\
  find_repo 2 (session run.1.2) = Some Scenario.rpm_repo /\
  find_repo 2 (stored run.1.2) = Some Scenario.rpm_repo /\
  fs run.1.2 !! "/repos/2" = Some Dir /\
  notified "deleted" 2 run.2 = 0%nat.
Proof.
  split; [reflexivity|]. split; [by_decide|]. vm_compute. repeat split.
Qed.

Lemma purge_removes_exactly_the_stale_witness :
  (find_repo 2 (session Scenario.purge.1.2) = None /\
   find_repo 2 (stored Scenario.purge.1.2) = None /\
   binaries_of 2 (session Scenario.purge.1.2) = [] /\
   binaries_of 2 (stored Scenario.purge.1.2) = [] /\
   (fs Scenario.purge.1.2 !! "/repos/2" = None /\
    fs Scenario.purge.1.2 !! "/repos/2/repodata" = None) /\
   notified "deleted" 2 Scenario.purge.2 = 1%nat) /\
  (Scenario.busy_repo ∈ repos (session Scenario.purge.1.2) /\
   notified "deleted" 3 Scenario.purge.2 = 0%nat).
Proof.
  assert (purge_repos Scenario.conf None Scenario.initial =
          (Return tt, Scenario.purge.1.2, Scenario.purge.2)) as Hrun
    by (vm_compute; reflexivity).
  split.
  - destruct (purge_removes_exactly_the_stale Scenario.conf None Scenario.initial
                _ _ Scenario.rpm_repo eq_refl ltac:(by_decide) Hrun ltac:(by_decide))
      as [Hstale _].
    destruct (Hstale eq_refl) as (H1 & H2 & H3 & H4 & Htree & H5).
    split_and!; [exact H1 | exact H2 | exact H3 | exact H4 | | | exact H5];
      by apply (Htree "/repos/2").
  - apply (purge_removes_exactly_the_stale Scenario.conf None Scenario.initial
             _ _ Scenario.busy_repo eq_refl ltac:(by_decide) Hrun ltac:(by_decide)).
    discriminate.
Defined.

Lemma purge_disabled_changes_nothing_witness :
  purge_repos Scenario.conf_no_purge None Scenario.initial =
  (Return tt, Scenario.initial,
   [Log INFO "purge_repos option is unset or explicitly disabled, will skip purge"]).
Proof.
  apply (purge_disabled_changes_nothing Scenario.conf_no_purge None Scenario.initial).
  left. reflexivity.
Defined.

(** C5 on the code.  Repo 2 is stale and its storage directory is not
    on disk: [shutil.rmtree] raises ENOENT, the handler re-raises it,
    and the run ends there; Repo 2 keeps its row and nobody is told
    that it was deleted, while its Binaries are gone from the session. *)
Theorem purge_missing_directory_aborts :
  let run := purge_repos Scenario.conf None Scenario.missing_dir in
  fs Scenario.missing_dir !! "/repos/2" = None /\
  run.1.1 = Raise (OSError ENOENT) /\
  find_repo 2 (session run.1.2) = Some Scenario.rpm_repo /\
  find_repo 2 (stored run.1.2) = Some Scenario.rpm_repo /\
  notified "deleted" 2 run.2 = 0%nat /\
  binaries_of 2 (session run.1.2) = [] /\
  length (binaries_of 2 (stored run.1.2)) = 2%nat.
Proof. vm_compute. repeat split. Qed.

(** C6 on the code.  The file of Binary 11 cannot be removed (EACCES):
    the handler swallows the error, the row of Binary 11 is deleted all
    the same, Binary 12 is processed after it and the purge of Repo 2
    runs to its end. *)
Theorem purge_locked_binary_is_swallowed :
  let run := purge_repos Scenario.conf None Scenario.locked_binary in
  (os_remove "/binaries/y.rpm" Scenario.locked_binary).1.1 = Raise (OSError EACCES) /\
  run.1.1 = Return tt /\
  binaries_of 2 (session run.1.2) = [] /\
  binaries_of 2 (stored run.1.2) = [] /\
  fs run.1.2 !! "/binaries/y.rpm" = Some Locked /\
  fs run.1.2 !! "/binaries/z.rpm" = None /\
  find_repo 2 (stored run.1.2) = None /\
  notified "deleted" 2 run.2 = 1%nat.
Proof. vm_compute. repeat split. Qed.

(** C7 on the code.  A dictionary that contains itself makes
    [json.dumps] raise [ValueError], which the handler around it does
    not catch: the exception leaves the task and the log holds nothing
    but the line about the URL.  No request was sent and no retry was
    asked for. *)
Lemma callback_circular_payload_is_not_logged :
  let run := callback Scenario.conf Scenario.sample Scenario.dumps_sample
                      Scenario.unavailable Scenario.first_attempt
                      (DictData Scenario.Circular) "ceph" None Scenario.initial in
  Scenario.dumps_sample Scenario.Circular = inr ValueError /\
  run.1.1 = Raise ValueError /\
  run.2 = [Log DEBUG "callback for url: %s"] /\
  posts run.2 = [] /\
  retries run.2 = [].
Proof. vm_compute. repeat split. Qed.

Lemma callback_retries_only_on_http_error_witness :
  let run := callback Scenario.conf Scenario.sample Scenario.dumps_sample
                      Scenario.unavailable Scenario.first_attempt
                      (DictData (Scenario.Plain "{}")) "ceph" None
                      Scenario.initial in
  retries run.2 = [HTTPError 503] /\
  run.1.1 = Raise (Retry (HTTPError 503)) /\
  resubmitted run.2 = [(1%nat, 30)].
Proof.
  intros run.
  destruct (callback_retries_only_on_http_error Scenario.conf Scenario.sample
              Scenario.dumps_sample Scenario.unavailable Scenario.first_attempt
              (DictData (Scenario.Plain "{}")) "ceph" None
              Scenario.initial run.1.1 run.1.2 run.2) as (_ & Hretry & _).
  - vm_compute. reflexivity.
  - destruct (Hretry (Request "http://ci.example/callbacks/ceph/" "{}"
                              ("admin", "secret") true
                              [("Content-type", "application/json")]) 503)
      as (Hasked & Hagain & _).
    + reflexivity.
    + reflexivity.
    + lia.
    + destruct Hagain as [Hout Hsent].
      * reflexivity.
      * simpl. lia.
      * split_and!; [exact Hasked | exact Hout | exact Hsent].
Defined.

(** ** Further checks on the scenarios *)

(** The endpoint of a project is the configured URL joined with its
    name, with a trailing separator. *)
Example callback_endpoint :
  os_path_join "http://ci.example/callbacks" ["ceph"; ""] =
  "http://ci.example/callbacks/ceph/".
Proof. reflexivity. Qed.

(** An endpoint that cannot be reached: one request, an error in the
    log, a normal return and no retry. *)
Example callback_unreachable_is_swallowed :
  callback Scenario.conf (option string) Scenario.json_dumps Scenario.unreachable
           Scenario.first_attempt (StrData "{}") "ceph" None Scenario.initial =
  (Return RNone, Scenario.initial,
   [Log DEBUG "callback for url: %s";
    Post (Request "http://ci.example/callbacks/ceph/" "{}" ("admin", "secret") true
                  [("Content-type", "application/json")]);
    Log ERROR "fatal error trying to POST callback"]).
Proof. reflexivity. Qed.

(** An endpoint that is out of service, on the task's last attempt and
    on a direct call: the HTTP error leaves the task and nothing is
    sent to the queue. *)
Example callback_out_of_retries :
  callback Scenario.conf (option string) Scenario.json_dumps Scenario.unavailable
           Scenario.last_attempt (StrData "{}") "ceph" None Scenario.initial =
  (Raise (HTTPError 503), Scenario.initial,
   [Log DEBUG "callback for url: %s";
    Post (Request "http://ci.example/callbacks/ceph/" "{}" ("admin", "secret") true
                  [("Content-type", "application/json")]);
    Log WARNING "callback failed: %s";
    RetryRequested (HTTPError 503)]).
Proof. reflexivity. Qed.

Example callback_called_directly :
  (callback Scenario.conf (option string) Scenario.json_dumps Scenario.unavailable
            Scenario.direct_call (StrData "{}") "ceph" None Scenario.initial).1.1 =
  Raise (HTTPError 503).
Proof. reflexivity. Qed.

(** The third retry is the last one that is sent to the queue. *)
Example callback_last_resubmission :
  resubmitted
    (callback Scenario.conf (option string) Scenario.json_dumps Scenario.unavailable
              (mkContext 2 false) (StrData "{}") "ceph" None Scenario.initial).2 =
  [(3%nat, 30)].
Proof. reflexivity. Qed.

(** The first cycle on the scenario, event by event. *)
Example first_cycle_trace :
  Scenario.first_cycle.2 =
  [Log INFO "polling repos....";
   Log INFO "repo %s needs to be updated/created"; Notify "queued" 1;
   Log WARNING "inferred repo type as: %s"; Commit;
   Log INFO "repo %s needs to be updated/created"; Notify "queued" 2;
   ApplyAsync (Job create_rpm_repo 2 5 "build_repos"); Commit;
   Log INFO "repo %s needs to be updated/created"; Notify "queued" 4;
   Log WARNING "failed to infer repository type";
   Log WARNING "got a repository with an unknown type: %s"; Commit;
   Log INFO "completed repo polling"].
Proof. reflexivity. Qed.

(** * More of the poller *)

Section PollCycles.

Variable conf : Conf.
Variable infer_type : list Binary -> option string.

Lemma submitted_app t1 t2 : submitted (t1 ++ t2) = submitted t1 ++ submitted t2.
Proof. apply omap_app. Qed.

Lemma notifications_app s t1 t2 :
  notifications s (t1 ++ t2) = notifications s t1 ++ notifications s t2.
Proof. apply omap_app. Qed.

Lemma commits_app t1 t2 : commits (t1 ++ t2) = (commits t1 + commits t2)%nat.
Proof. unfold commits. by rewrite List.filter_app, length_app. Qed.

Lemma submitted_dispatched r bs :
  submitted (dispatched conf infer_type r bs) = option_list (job_of conf r).
Proof.
  unfold dispatched, job_of.
  destruct (type_is r "rpm"); [done|].
  destruct (type_is r "deb"); [done|].
  by destruct (infer_type bs).
Qed.

Lemma notifications_dispatched s r bs :
  notifications s (dispatched conf infer_type r bs) = [].
Proof.
  unfold dispatched.
  destruct (type_is r "rpm"); [done|].
  destruct (type_is r "deb"); [done|].
  by destruct (infer_type bs).
Qed.

Lemma commits_dispatched r bs : commits (dispatched conf infer_type r bs) = 0%nat.
Proof.
  unfold dispatched.
  destruct (type_is r "rpm"); [done|].
  destruct (type_is r "deb"); [done|].
  by destruct (infer_type bs).
Qed.

Lemma poll_repo_trace r w :
  let t := (poll_repo conf infer_type r w).2 in
  submitted t = (if worked r then option_list (job_of conf r) else []) /\
  notifications "queued" t = (if worked r then [repo_id r] else []) /\
  commits t = (if worked r then 1%nat else 0%nat).
Proof.
  unfold worked. destruct (is_updating r) eqn:Hu.
  { by rewrite poll_repo_skips. }
  destruct (needs_update r) eqn:Hn.
  2: { by rewrite poll_repo_idle. }
  rewrite poll_repo_processes by done. simpl.
  set (d := dispatched conf infer_type r _).
  change (submitted (d ++ [Commit]) = option_list (job_of conf r) /\
          notifications "queued" ([Notify "queued" (repo_id r)] ++ d ++ [Commit]) = [repo_id r] /\
          commits (d ++ [Commit]) = 1%nat).
  rewrite submitted_app, !notifications_app, commits_app.
  unfold d. rewrite submitted_dispatched, notifications_dispatched, commits_dispatched.
  split_and!; [apply app_nil_r | done | done].
Qed.

Lemma poll_loop_trace rs w :
  let t := (for_each rs (poll_repo conf infer_type) w).2 in
  submitted t = omap (job_of conf) (List.filter worked rs) /\
  notifications "queued" t = List.map repo_id (List.filter worked rs) /\
  commits t = length (List.filter worked rs).
Proof.
  revert w. induction rs as [|r rs IH]; intros w; [done|].
  destruct (poll_repo_step conf infer_type r w) as (w1 & t1 & Hstep & _).
  pose proof (poll_repo_trace r w) as Htr. rewrite Hstep in Htr. simpl in Htr.
  destruct Htr as (Hs1 & Hn1 & Hc1).
  specialize (IH w1).
  rewrite (for_each_cons_return _ _ _ _ _ _ Hstep).
  destruct (for_each rs _ w1) as [[o2 w2] t2]. simpl in *.
  destruct IH as (Hs & Hn & Hc).
  rewrite submitted_app, notifications_app, commits_app, Hs1, Hn1, Hc1, Hs, Hn, Hc.
  destruct (worked r); simpl; [|done].
  by destruct (job_of conf r).
Qed.

Lemma filter_worked_selected (l : list Repo) :
  List.filter worked (List.filter poll_filter l) = List.filter processed l.
Proof.
  induction l as [|r l IH]; simpl; [done|].
  rewrite <- IH.
  assert (processed r = poll_filter r && worked r) as ->.
  { unfold processed, worked, poll_filter.
    by destruct (needs_update r), (is_queued r), (is_updating r). }
  destruct (poll_filter r); simpl; [done|].
  by rewrite IH.
Qed.

(** X1. The jobs a cycle submits are, in table order, the job of each
    Repo that needs an update, is neither queued nor being updated and
    has type rpm or deb: one job each, for that Repo's builder, delayed
    by [quiet_time] on the queue [build_repos]; nothing else is
    submitted. *)
Theorem poll_submits_exactly w :
  submitted (poll_repos conf infer_type w).2 =
  omap (job_of conf) (List.filter processed (repos (session w))).
Proof.
  destruct (poll_repos_run conf infer_type w) as (w' & t & Hloop & ->). simpl.
  pose proof (poll_loop_trace (List.filter poll_filter (repos (session w))) w) as Htr.
  rewrite Hloop in Htr. simpl in Htr. destruct Htr as (Hs & _).
  rewrite filter_worked_selected in Hs.
  change (submitted (t ++ [Log INFO "completed repo polling"]) =
          omap (job_of conf) (List.filter processed (repos (session w)))).
  rewrite submitted_app, Hs. apply app_nil_r.
Qed.

(** X2. A cycle sends one "queued" notification and commits once for
    each Repo that needs an update and is neither queued nor being
    updated, whatever its type, in table order, and for no other. *)
Theorem poll_notifies_and_commits_once_each w :
  let t := (poll_repos conf infer_type w).2 in
  notifications "queued" t =
    List.map repo_id (List.filter processed (repos (session w))) /\
  commits t = length (List.filter processed (repos (session w))).
Proof.
  destruct (poll_repos_run conf infer_type w) as (w' & t & Hloop & ->). simpl.
  pose proof (poll_loop_trace (List.filter poll_filter (repos (session w))) w) as Htr.
  rewrite Hloop in Htr. simpl in Htr. destruct Htr as (_ & Hn & Hc).
  rewrite filter_worked_selected in Hn, Hc.
  change (notifications "queued" (t ++ [Log INFO "completed repo polling"]) =
            List.map repo_id (List.filter processed (repos (session w))) /\
          commits (t ++ [Log INFO "completed repo polling"]) =
            length (List.filter processed (repos (session w)))).
  rewrite notifications_app, commits_app, Hn, Hc.
  split; [apply app_nil_r | apply Nat.add_0_r].
Qed.

Lemma kept_refl x : kept x x.
Proof. by repeat split. Qed.

Lemma kept_trans x y z : kept x y -> kept y z -> kept x z.
Proof.
  intros (? & ? & ? & ? & ? & ?) (? & ? & ? & ? & ? & ?).
  repeat split; try congruence. auto.
Qed.

Lemma polled_row_kept r bs x : kept x (polled_row infer_type r bs x).
Proof.
  unfold polled_row.
  destruct (type_is r "rpm" || type_is r "deb"); [by repeat split|].
  destruct (infer_type bs); by repeat split.
Qed.

Lemma update_repo_kept (f : Repo -> Repo) i t :
  (forall x, kept x (f x)) ->
  Forall2 kept (repos t) (repos (update_repo i f t)).
Proof.
  intros Hf. unfold update_repo. simpl.
  induction (repos t) as [|x l IH]; simpl; constructor; [|done].
  destruct (repo_id x =? i); [apply Hf | apply kept_refl].
Qed.

Lemma poll_loop_kept rs w :
  Forall2 kept (repos (session w))
          (repos (session (for_each rs (poll_repo conf infer_type) w).1.2)).
Proof.
  revert w. induction rs as [|r rs IH]; intros w.
  { apply Forall_Forall2_diag, Forall_forall. intros x _. apply kept_refl. }
  assert (exists w1 t1, poll_repo conf infer_type r w = (Return tt, w1, t1) /\
                        Forall2 kept (repos (session w)) (repos (session w1)))
    as (w1 & t1 & Hstep & Hk).
  { destruct (is_updating r) eqn:Hu.
    { eexists _, _. split; [by apply poll_repo_skips|].
      apply Forall_Forall2_diag, Forall_forall. intros x _. apply kept_refl. }
    destruct (needs_update r) eqn:Hn.
    2: { eexists _, _. split; [by apply poll_repo_idle|].
         apply Forall_Forall2_diag, Forall_forall. intros x _. apply kept_refl. }
    eexists _, _. split; [by apply poll_repo_processes|]. simpl.
    apply update_repo_kept, polled_row_kept. }
  rewrite (for_each_cons_return _ _ _ _ _ _ Hstep).
  specialize (IH w1). destruct (for_each rs _ w1) as [[o2 w2] t2]. simpl in *.
  eapply Forall2_trans; [apply kept_trans | exact Hk | exact IH].
Qed.

(** X3. All a cycle changes are rows of Repos: the filesystem, the
    clock and the Binaries are as before, no row is added, dropped or
    moved, and each row keeps its id, [needs_update], [is_updating],
    path and [modified]; [is_queued] is never cleared. *)
Theorem poll_only_queues_and_types w :
  let run := poll_repos conf infer_type w in
  fs run.1.2 = fs w /\ utcnow run.1.2 = utcnow w /\
  binaries (session run.1.2) = binaries (session w) /\
  Forall2 kept (repos (session w)) (repos (session run.1.2)).
Proof.
  destruct (poll_repos_run conf infer_type w) as (w' & t & Hloop & ->). simpl.
  destruct (poll_loop_global conf infer_type
              (List.filter poll_filter (repos (session w))) w)
    as (w2 & t2 & Hloop' & Hfs & Hclk & Hb & _).
  rewrite Hloop in Hloop'. injection Hloop' as <- <-.
  split_and!; try done.
  pose proof (poll_loop_kept (List.filter poll_filter (repos (session w))) w) as Hk.
  by rewrite Hloop in Hk.
Qed.

Lemma poll_loop_all_busy rs w :
  (forall r, r ∈ rs -> is_updating r = true) ->
  for_each rs (poll_repo conf infer_type) w = (Return tt, w, []).
Proof.
  induction rs as [|r rs IH]; intros Hbusy; [done|].
  rewrite (for_each_cons_return _ _ _ _ _ _
             (poll_repo_skips conf infer_type r w (Hbusy r (list_elem_of_here _ _)))).
  rewrite IH; [done|]. intros x Hx. apply Hbusy. by apply list_elem_of_further.
Qed.

Lemma poll_repos_all_busy w :
  (forall r, r ∈ repos (session w) -> poll_filter r = true -> is_updating r = true) ->
  poll_repos conf infer_type w =
  (Return tt, w, [Log INFO "polling repos...."; Log INFO "completed repo polling"]).
Proof.
  intros Hbusy. unfold poll_repos. step_task.
  rewrite poll_loop_all_busy; [done|].
  intros r Hr. apply list_elem_of_In, List.filter_In in Hr as [Hr Hsel].
  apply Hbusy; [by apply list_elem_of_In | done].
Qed.

(** X4. When every Repo that needs an update and is not queued is
    being updated (in particular when there is none), a cycle changes
    nothing and does nothing but log its start and its end. *)
Theorem poll_noop_when_all_busy w :
  (forall r, r ∈ repos (session w) -> needs_update r = true ->
             is_queued r = false -> is_updating r = true) ->
  poll_repos conf infer_type w =
  (Return tt, w, [Log INFO "polling repos...."; Log INFO "completed repo polling"]).
Proof.
  intros Hbusy. apply poll_repos_all_busy. intros r Hr Hsel.
  unfold poll_filter in Hsel. apply andb_true_iff in Hsel as [Hn Hq].
  apply Hbusy; [done | done | by apply negb_true_iff].
Qed.

Lemma lookup_map_Some {A B} (f : A -> B) (l : list A) i y :
  List.map f l !! i = Some y -> exists x, l !! i = Some x /\ y = f x.
Proof.
  revert i. induction l as [|a l IH]; intros [|i]; simpl; try done.
  - intros [= <-]. by exists a.
  - apply IH.
Qed.

(** After the loop, the rows of every Repo it worked on are queued. *)
Lemma poll_loop_marks rs w r y :
  r ∈ rs -> worked r = true ->
  y ∈ repos (session (for_each rs (poll_repo conf infer_type) w).1.2) ->
  repo_id y = repo_id r -> is_queued y = true.
Proof.
  revert w. induction rs as [|r0 rs IH]; intros w Hin Hw Hy Hid.
  { by apply elem_of_nil in Hin. }
  destruct (poll_repo_step conf infer_type r0 w) as (w1 & t1 & Hstep & _).
  rewrite (for_each_cons_return _ _ _ _ _ _ Hstep) in Hy.
  pose proof (poll_loop_kept rs w1) as Hk.
  destruct (for_each rs _ w1) as [[o2 w2] t2] eqn:Hrest. simpl in *.
  apply elem_of_cons in Hin as [<-|Hin].
  - unfold worked in Hw. apply andb_true_iff in Hw as [Hu Hn].
    apply negb_true_iff in Hu.
    rewrite poll_repo_processes in Hstep by done. injection Hstep as <- <-.
    apply list_elem_of_lookup in Hy as [i Hi].
    destruct (Forall2_lookup_r _ _ _ _ _ Hk Hi) as (x & Hx & Hkept).
    destruct Hkept as (Hidx & _ & _ & _ & _ & Hq). apply Hq.
    simpl in Hx. unfold polled, update_repo in Hx. simpl in Hx.
    apply lookup_map_Some in Hx as (x0 & Hx0 & ->).
    destruct (Z.eqb_spec (repo_id x0) (repo_id r)) as [Heq|Hne].
    + apply polled_row_queued.
    + exfalso. apply Hne. congruence.
  - apply (IH w1); try done. by rewrite Hrest.
Qed.

(** X5. Two cycles in a row: the second one, run on the state the first
    one left, changes nothing, notifies nobody and submits no job. *)
Theorem poll_again_is_noop w :
  let w1 := (poll_repos conf infer_type w).1.2 in
  poll_repos conf infer_type w1 =
  (Return tt, w1, [Log INFO "polling repos...."; Log INFO "completed repo polling"]).
Proof.
  intros w1. apply poll_repos_all_busy. intros y Hy Hsel.
  destruct (is_updating y) eqn:Hu; [done|]. exfalso.
  unfold w1 in Hy.
  destruct (poll_repos_run conf infer_type w) as (w' & t & Hloop & Hrun).
  rewrite Hrun in Hy. simpl in Hy.
  set (rs := List.filter poll_filter (repos (session w))) in *.
  pose proof (poll_loop_kept rs w) as Hk. rewrite Hloop in Hk. simpl in Hk.
  unfold poll_filter in Hsel. apply andb_true_iff in Hsel as [Hn Hq].
  apply negb_true_iff in Hq.
  pose proof Hy as Hy'.
  apply list_elem_of_lookup in Hy' as [i Hi].
  destruct (Forall2_lookup_r _ _ _ _ _ Hk Hi) as (x & Hx & Hid & Hnx & Hux & _ & _ & Hqx).
  assert (is_queued x = false) as Hqx'.
  { destruct (is_queued x); [|done]. rewrite Hqx in Hq; done. }
  assert (x ∈ rs) as Hxrs.
  { apply list_elem_of_In, List.filter_In. split.
    - apply list_elem_of_In. by eapply list_elem_of_lookup_2.
    - unfold poll_filter. rewrite <- Hnx, Hn, Hqx'. done. }
  assert (is_queued y = true) as Hqy; [|congruence].
  apply (poll_loop_marks rs w x y Hxrs).
  - unfold worked. by rewrite <- Hux, Hu, <- Hnx, Hn.
  - by rewrite Hloop.
  - done.
Qed.

(** X6. With unique primary keys, a Repo that is already queued or does
    not need an update is left alone by a cycle: its row is as before,
    no job is submitted and no notification is sent for it. *)
Theorem poll_leaves_settled_alone r w :
  well_keyed (session w) -> r ∈ repos (session w) ->
  is_queued r = true \/ needs_update r = false ->
  let run := poll_repos conf infer_type w in
  find_repo (repo_id r) (session run.1.2) = Some r /\
  jobs_for (repo_id r) run.2 = [] /\
  forall s, notified s (repo_id r) run.2 = 0%nat.
Proof.
  intros Hk Hin Hsettled run.
  destruct (poll_repos conf infer_type w) as [[o w'] t] eqn:Hrun. subst run. simpl.
  destruct (poll_repos_frame conf infer_type (repo_id r) w o w' t)
    as (_ & Hf & Hj & Hn & _); [|done|].
  { intros x Hx Hid Hsel. exfalso.
    pose proof (find_repo_keyed _ _ Hk Hx) as Hfx.
    rewrite Hid, (find_repo_keyed _ _ Hk Hin) in Hfx. injection Hfx as <-.
    unfold poll_filter in Hsel. apply andb_true_iff in Hsel as [Hn Hq].
    apply negb_true_iff in Hq. destruct Hsettled; congruence. }
  split_and!; [|done|done].
  rewrite Hf. by apply find_repo_keyed.
Qed.

End PollCycles.

(** * More of the purger *)

Section PurgeRuns.

Variable conf : Conf.

Lemma purge_binary_exact b w :
  purge_binary b w =
  (Return tt,
   mkWorld (mkTables (repos (session w))
              (List.filter (fun b' => negb (binary_id b' =? binary_id b))
                           (binaries (session w))))
           (stored w) (unlinked (binary_path b) (fs w)) (utcnow w),
   [Flush]).
Proof.
  unfold purge_binary, os_remove, unlinked. step_task.
  by destruct (fs w !! binary_path b) as [[]|].
Qed.

Lemma unlinked_other p k m : k <> p -> unlinked p m !! k = m !! k.
Proof.
  intros Hne. unfold unlinked.
  destruct (m !! p) as [[]|]; try done. by apply lookup_delete_ne.
Qed.

Lemma unlinked_Some p k n m : unlinked p m !! k = Some n -> m !! k = Some n.
Proof.
  unfold unlinked. destruct (m !! p) as [[]|] eqn:Hp; try done.
  intros H. by apply lookup_delete_Some in H as [_ H].
Qed.

Lemma unlinked_Dir p k m : m !! k = Some Dir -> unlinked p m !! k = Some Dir.
Proof.
  intros Hk. unfold unlinked. destruct (m !! p) as [[]|] eqn:Hp; try done.
  rewrite lookup_delete_ne; [done|]. intros ->. congruence.
Qed.

(** The inner loop and the disk: only files of the Binaries go. *)
Lemma purge_binaries_disk bs w o w' t :
  for_each bs purge_binary w = (o, w', t) ->
  (forall k, k ∉ List.map binary_path bs -> fs w' !! k = fs w !! k) /\
  (forall k n, fs w' !! k = Some n -> fs w !! k = Some n) /\
  (forall k, fs w !! k = Some Dir -> fs w' !! k = Some Dir).
Proof.
  revert w o w' t. induction bs as [|b bs IH]; intros w o w' t Hrun.
  { simpl in Hrun. by injection Hrun as <- <- <-. }
  rewrite (for_each_cons_return _ _ _ _ _ _ (purge_binary_exact b w)) in Hrun.
  destruct (for_each bs purge_binary _) as [[o2 w2] t2] eqn:Hrest.
  injection Hrun as <- <- <-.
  destruct (IH _ _ _ _ Hrest) as (Hother & Hsub & Hdir). simpl in *.
  split_and!.
  - intros k Hk. apply not_elem_of_cons in Hk as [Hne Hk].
    rewrite Hother by done. by apply unlinked_other.
  - intros k n Hk. eapply unlinked_Some, Hsub, Hk.
  - intros k Hk. by apply Hdir, unlinked_Dir.
Qed.

(** Every way [purge_repo] can end, from the state the inner loop left. *)
Lemma purge_repo_cases r w :
  exists w1 t1,
    for_each (binaries_of (repo_id r) (session w)) purge_binary w = (Return tt, w1, t1) /\
    ((truthy (repo_path r) = false /\
      purge_repo r w =
      (Return tt, purged r w1 (fs w1),
       Log INFO "repo %s is being processed for removal" :: t1 ++
       [Notify "deleted" (repo_id r); Commit]))
     \/
     (exists p, repo_path r = Some p /\ p <> "" /\
        purge_repo r w =
        match fs w1 !! p with
        | Some Dir =>
            if blocked p (fs w1) then
              (Raise (OSError EACCES), w1,
               Log INFO "repo %s is being processed for removal" :: t1)
            else
              (Return tt,
               purged r w1 (filter (fun kv : string * node => under p kv.1 = false) (fs w1)),
               Log INFO "repo %s is being processed for removal" :: t1 ++
               [Notify "deleted" (repo_id r); Commit])
        | Some File =>
            (Raise (OSError ENOTDIR), w1,
             Log INFO "repo %s is being processed for removal" :: t1)
        | Some Locked =>
            (Raise (OSError EACCES), w1,
             Log INFO "repo %s is being processed for removal" :: t1)
        | None =>
            (Raise (OSError ENOENT), w1,
             Log INFO "repo %s is being processed for removal" :: t1)
        end)).
Proof.
  destruct (purge_binaries_run (binaries_of (repo_id r) (session w)) w)
    as (w1 & t1 & Hloop & _).
  exists w1, t1. split; [done|].
  unfold purge_repo, purged. step_task. rewrite Hloop.
  destruct (repo_path r) as [p|] eqn:Hp; simpl.
  - destruct (String.eqb p "") eqn:Hempty; simpl.
    + left. done.
    + right. exists p. apply String.eqb_neq in Hempty. split_and!; try done.
      unfold shutil_rmtree.
      destruct (fs w1 !! p) as [[]|]; simpl; try by rewrite ?app_nil_r.
      destruct (blocked p (fs w1)); simpl; by rewrite ?app_nil_r.
  - left. done.
Qed.

Lemma filter_none {A} (p : A -> bool) (l : list A) :
  (forall x, x ∈ l -> p x = false) -> List.filter p l = [].
Proof.
  induction l as [|a l IH]; intros Hp; simpl; [done|].
  rewrite (Hp a) by apply list_elem_of_here.
  apply IH. intros x Hx. apply Hp. by apply list_elem_of_further.
Qed.

Lemma purge_repos_none_stale _now w :
  purge_disabled conf = false ->
  (forall r, r ∈ repos (session w) ->
             purge_filter (default (utcnow w) _now - timedelta_weeks 2) r = false) ->
  purge_repos conf _now w =
  (Return tt, w,
   [Log INFO "polling repos for purging...."; Log INFO "completed repo purging"]).
Proof.
  intros Hen Hfresh. rewrite purge_repos_unfold by done. simpl.
  by rewrite filter_none.
Qed.

(** X7. With the purge enabled and no Repo modified before
    [now - 14 days], a run deletes nothing: the state is as before and
    the run has only logged its start and its end. *)
Theorem purge_noop_when_nothing_stale _now w :
  purge_disabled conf = false ->
  (forall r, r ∈ repos (session w) ->
             default (utcnow w) _now - 14 * microseconds_per_day <= modified r) ->
  purge_repos conf _now w =
  (Return tt, w,
   [Log INFO "polling repos for purging...."; Log INFO "completed repo purging"]).
Proof.
  intros Hen Hfresh. apply purge_repos_none_stale; [done|].
  intros r Hr. unfold purge_filter. apply Z.ltb_ge.
  change (timedelta_weeks 2) with (14 * microseconds_per_day). by apply Hfresh.
Qed.

(** X8. A run that completed leaves nothing for a second run with the
    same [_now]: that one changes nothing, notifies nobody and only
    logs its start and its end. *)
Theorem purge_again_is_noop _now w w' t :
  purge_disabled conf = false ->
  purge_repos conf _now w = (Return tt, w', t) ->
  purge_repos conf _now w' =
  (Return tt, w',
   [Log INFO "polling repos for purging...."; Log INFO "completed repo purging"]).
Proof.
  intros Hen Hrun. rewrite purge_repos_unfold in Hrun by done. simpl in Hrun.
  set (lifespan := default (utcnow w) _now - timedelta_weeks 2) in *.
  set (rs := List.filter (purge_filter lifespan) (repos (session w))) in *.
  destruct (for_each rs purge_repo w) as [[[[]|e] w1] t1] eqn:Hloop; [|discriminate].
  injection Hrun as <- <-.
  destruct (purge_loop_returns _ _ _ _ Hloop) as (Hr & _ & _ & Hclk & _).
  apply purge_repos_none_stale; [done|].
  intros x Hx. rewrite Hclk. fold lifespan.
  destruct (purge_filter lifespan x) eqn:Hstale; [exfalso|done].
  apply Hr in Hx as [Hx Hnot]. apply Hnot, list_elem_of_fmap_2.
  apply list_elem_of_In, List.filter_In. split; [by apply list_elem_of_In | done].
Qed.

Lemma for_each_raise_split {A} (body : A -> task unit) rs w e w' t :
  for_each rs body w = (Raise e, w', t) ->
  exists done r rest w0 t0 t1,
    rs = done ++ r :: rest /\
    for_each done body w = (Return tt, w0, t0) /\
    body r w0 = (Raise e, w', t1) /\
    t = t0 ++ t1.
Proof.
  revert w t. induction rs as [|a rs IH]; intros w t Hrun; [discriminate|].
  destruct (body a w) as [[[[]|e0] w1] t1] eqn:Hstep.
  - rewrite (for_each_cons_return _ _ _ _ _ _ Hstep) in Hrun.
    destruct (for_each rs body w1) as [[o2 w2] t2] eqn:Hrest.
    injection Hrun as -> -> <-.
    destruct (IH _ _ Hrest) as (done & r & rest & w0 & t0 & t1' & -> & Hdone & Hr & ->).
    exists (a :: done), r, rest, w0, (t1 ++ t0), t1'.
    split_and!; [done | | done | by rewrite app_assoc].
    by rewrite (for_each_cons_return _ _ _ _ _ _ Hstep), Hdone.
  - rewrite (for_each_cons_raise _ _ _ _ _ _ _ Hstep) in Hrun.
    injection Hrun as -> -> ->.
    exists [], a, rs, w, [], t. by split_and!.
Qed.

(** What a failed purge of one Repo leaves behind. *)
Lemma purge_repo_raises r w e w' t :
  purge_repo r w = (Raise e, w', t) ->
  (exists errno, e = OSError errno) /\
  stored w' = stored w /\
  repos (session w') = repos (session w) /\
  (forall s i, notified s i t = 0%nat) /\
  binaries_of (repo_id r) (session w') = [].
Proof.
  intros Hrun.
  destruct (purge_repo_cases r w) as (w1 & t1 & Hloop & Hcases).
  destruct (purge_binaries_run (binaries_of (repo_id r) (session w)) w)
    as (w1' & t1' & Hloop' & Hr & Hs & _ & _ & Hb & Hn).
  rewrite Hloop in Hloop'. injection Hloop' as <- <-.
  assert (binaries_of (repo_id r) (session w1) = []) as Hgone.
  { unfold binaries_of. apply filter_none. intros b Hin.
    apply Hb in Hin as [Hin Hid]. apply Z.eqb_neq. intros Hown. apply Hid.
    apply list_elem_of_fmap_2, list_elem_of_In, List.filter_In.
    split; [by apply list_elem_of_In | by apply Z.eqb_eq]. }
  destruct Hcases as [[_ Heq] | (p & _ & _ & Heq)]; rewrite Heq in Hrun; [discriminate|].
  destruct (fs w1 !! p) as [[]|]; [|destruct (blocked p (fs w1))|..];
    try discriminate; injection Hrun as <- <- <-; split_and!; eauto.
Qed.

(** X9. Filesystem errors in the purge of one Repo.  What [os.remove]
    raises on the file of a Binary never leaves it: for a Repo without
    a storage path (none, or the empty string) no OSError leaves the
    purge.  With a storage path that is not on disk the purge ends
    with OSError, ENOENT.  And whenever an OSError leaves it, the Repo
    had a storage path, nothing was committed, every Repo row is kept,
    the Binary rows of the Repo are gone from the session and no
    notification was sent. *)
Theorem purge_repo_outcome r w :
  let run := purge_repo r w in
  (truthy (repo_path r) = false -> forall errno, run.1.1 <> Raise (OSError errno)) /\
  (forall p, repo_path r = Some p -> p <> "" -> fs w !! p = None ->
     run.1.1 = Raise (OSError ENOENT)) /\
  (forall errno, run.1.1 = Raise (OSError errno) ->
     (exists p, repo_path r = Some p /\ p <> "") /\
     stored run.1.2 = stored w /\
     repos (session run.1.2) = repos (session w) /\
     binaries_of (repo_id r) (session run.1.2) = [] /\
     forall s i, notified s i run.2 = 0%nat).
Proof.
  intros run. subst run.
  destruct (purge_repo_cases r w) as (w1 & t1 & Hloop & Hcases).
  destruct (purge_binaries_disk _ _ _ _ _ Hloop) as (_ & Hsub & _).
  split_and!.
  - intros Hfalsy errno. destruct Hcases as [[_ ->] | (p & Hp & Hne & _)]; [done|].
    rewrite Hp in Hfalsy. simpl in Hfalsy.
    by apply negb_false_iff, String.eqb_eq in Hfalsy.
  - intros p Hp Hne Hmissing.
    destruct Hcases as [[Hfalsy _] | (p' & Hp' & _ & ->)].
    + rewrite Hp in Hfalsy. simpl in Hfalsy.
      by apply negb_false_iff, String.eqb_eq in Hfalsy.
    + rewrite Hp in Hp'. injection Hp' as <-.
      destruct (fs w1 !! p) as [n|] eqn:Hlook; [|done].
      apply Hsub in Hlook. congruence.
  - intros errno He.
    destruct (purge_repo r w) as [[o w'] t] eqn:Hrun. simpl in *. subst o.
    destruct (purge_repo_raises _ _ _ _ _ Hrun) as (_ & Hst & Hrows & Hquiet & Hbin).
    split_and!; try done.
    destruct Hcases as [[_ Heq] | (p & Hp & Hne & _)]; [congruence|].
    by exists p.
Qed.

(** X10. When a run is cut short by the storage directory of a stale
    Repo (unique primary keys assumed): the error is an OSError; the
    stale Repos before it in table order are purged for good, gone from
    the session and from the committed tables with one "deleted"
    notification each; the failing Repo and the stale ones after it
    keep their rows and get no notification; the Binary rows of the
    failing Repo are gone from the session. *)
Theorem purge_abort_keeps_earlier_purges _now w e w' t :
  purge_disabled conf = false ->
  well_keyed (session w) ->
  purge_repos conf _now w = (Raise e, w', t) ->
  let boundary := default (utcnow w) _now - 14 * microseconds_per_day in
  exists done r rest errno,
    List.filter (purge_filter boundary) (repos (session w)) = done ++ r :: rest /\
    e = OSError errno /\
    (forall x, x ∈ done ->
       find_repo (repo_id x) (session w') = None /\
       find_repo (repo_id x) (stored w') = None /\
       notified "deleted" (repo_id x) t = 1%nat) /\
    (forall x, x ∈ r :: rest ->
       x ∈ repos (session w') /\ notified "deleted" (repo_id x) t = 0%nat) /\
    binaries_of (repo_id r) (session w') = [].
Proof.
  intros Hen Hk Hrun boundary.
  rewrite purge_repos_unfold in Hrun by done.
  change (timedelta_weeks 2) with (14 * microseconds_per_day) in Hrun.
  fold boundary in Hrun. simpl in Hrun.
  set (rs := List.filter (purge_filter boundary) (repos (session w))) in *.
  assert (NoDup (List.map repo_id rs)) as Hnd by apply NoDup_ids_filter, Hk.
  assert (forall x, x ∈ rs -> x ∈ repos (session w)) as Hsub.
  { intros x Hx. apply list_elem_of_In, List.filter_In in Hx as [Hx _].
    by apply list_elem_of_In. }
  destruct (for_each rs purge_repo w) as [[[[]|e0] w1] t1] eqn:Hloop; [discriminate|].
  injection Hrun as <- <- <-.
  destruct (for_each_raise_split _ _ _ _ _ _ Hloop)
    as (done & r & rest & w0 & t0 & t2 & Hsplit & Hdone & Hfail & ->).
  destruct (purge_loop_returns _ _ _ _ Hdone) as (Hr & _ & Hs & _ & _ & _ & Hn).
  destruct (purge_repo_raises _ _ _ _ _ Hfail) as ([errno ->] & Hst & Hrows & Hquiet & Hbin).
  rewrite Hsplit in Hnd, Hsub.
  rewrite List.map_app in Hnd. apply NoDup_app in Hnd as (Hnd1 & Hdisj & _).
  assert (forall i, notified "deleted" i
            (Log INFO "polling repos for purging...." :: t0 ++ t2) =
          count_occ Z.eq_dec (List.map repo_id done) i) as Hcount.
  { intros i. change (notified "deleted" i (t0 ++ t2) = count_occ Z.eq_dec (List.map repo_id done) i).
    by rewrite notified_app, Hn, Hquiet, Nat.add_0_r. }
  exists done, r, rest, errno. split_and!; try done.
  - intros x Hx.
    assert (repo_id x ∈ List.map repo_id done) as Hid by (by apply list_elem_of_fmap_2).
    assert (find_repo (repo_id x) (session w0) = None) as Hgone.
    { apply find_repo_None. intros Hin.
      apply list_elem_of_fmap in Hin as (y & Hy & Hin).
      apply Hr in Hin as [_ Hin]. by rewrite <- Hy in Hin. }
    assert (done <> []) as Hne by (intros E; rewrite E in Hx; by apply elem_of_nil in Hx).
    split_and!.
    + unfold find_repo. rewrite Hrows. exact Hgone.
    + rewrite Hst, (Hs Hne). exact Hgone.
    + rewrite Hcount. apply NoDup_count_occ'; [by apply NoDup_ListNoDup | by apply list_elem_of_In].
  - intros x Hx.
    assert (repo_id x ∉ List.map repo_id done) as Hid.
    { intros Hin. apply (Hdisj _ Hin).
      change (repo_id x ∈ List.map repo_id (r :: rest)). by apply list_elem_of_fmap_2. }
    split.
    + rewrite Hrows. apply Hr. split; [|done].
      apply Hsub. apply elem_of_app. by right.
    + rewrite Hcount. apply count_occ_not_In. by rewrite <- list_elem_of_In.
Qed.

(** What the purge of one Repo, however it ends, does to the disk and
    to the Binary rows. *)
Lemma purge_repo_frame r w o w' t :
  purge_repo r w = (o, w', t) ->
  (forall k n, fs w' !! k = Some n -> fs w !! k = Some n) /\
  (forall k,
     (forall b, b ∈ binaries_of (repo_id r) (session w) -> binary_path b <> k) ->
     (forall p, repo_path r = Some p -> under p k = false) ->
     fs w' !! k = fs w !! k) /\
  (forall b, b ∈ binaries (session w') <->
             b ∈ binaries (session w) /\
             binary_id b ∉ List.map binary_id (binaries_of (repo_id r) (session w))).
Proof.
  intros Hrun.
  destruct (purge_repo_cases r w) as (w1 & t1 & Hloop & Hcases).
  destruct (purge_binaries_disk _ _ _ _ _ Hloop) as (Hother & Hsub & _).
  destruct (purge_binaries_run (binaries_of (repo_id r) (session w)) w)
    as (w1' & t1' & Hloop' & _ & _ & _ & _ & Hb & _).
  rewrite Hloop in Hloop'. injection Hloop' as <- <-.
  assert (forall k, (forall b, b ∈ binaries_of (repo_id r) (session w) -> binary_path b <> k) ->
                    fs w1 !! k = fs w !! k) as Hother'.
  { intros k Hk. apply Hother. intros Hin.
    apply list_elem_of_fmap in Hin as (b & -> & Hin). by apply (Hk b). }
  destruct Hcases as [[_ Heq] | (p & Hp & _ & Heq)]; rewrite Heq in Hrun.
  { injection Hrun as <- <- <-. simpl. split_and!; [done | | done].
    intros k Hk _. by apply Hother'. }
  destruct (fs w1 !! p) as [[]|] eqn:Hlook;
    [|destruct (blocked p (fs w1))|..]; injection Hrun as <- <- <-; simpl.
  all: split_and!; try done; try (intros k Hk _; by apply Hother').
  - intros k n Hk. apply map_lookup_filter_Some in Hk as [Hk _]. by apply Hsub.
  - intros k Hk Hout. rewrite <- Hother' by done.
    destruct (fs w1 !! k) as [n|] eqn:E.
    + apply map_lookup_filter_Some. split; [done|]. simpl. by apply Hout.
    + apply map_lookup_filter_None. by left.
Qed.

Lemma purge_loop_frame rs w o w' t :
  for_each rs purge_repo w = (o, w', t) ->
  (forall k n, fs w' !! k = Some n -> fs w !! k = Some n) /\
  (forall b, b ∈ binaries (session w') -> b ∈ binaries (session w)) /\
  (forall k,
     (forall b, b ∈ binaries (session w) ->
                binary_repo b ∈ List.map repo_id rs -> binary_path b <> k) ->
     (forall r p, r ∈ rs -> repo_path r = Some p -> under p k = false) ->
     fs w' !! k = fs w !! k) /\
  (forall b, b ∈ binaries (session w) ->
     (forall b', b' ∈ binaries (session w) -> binary_id b' = binary_id b ->
                 binary_repo b' ∉ List.map repo_id rs) ->
     b ∈ binaries (session w')).
Proof.
  revert w o w' t. induction rs as [|r rs IH]; intros w o w' t Hrun.
  { simpl in Hrun. by injection Hrun as <- <- <-. }
  destruct (purge_repo r w) as [[o1 w1] t1] eqn:Hstep.
  destruct (purge_repo_frame _ _ _ _ _ Hstep) as (Hsub1 & Hfs1 & Hb1).
  assert (forall b, b ∈ binaries_of (repo_id r) (session w) ->
                    b ∈ binaries (session w) /\ binary_repo b = repo_id r) as Hown.
  { intros b Hb. apply list_elem_of_In, List.filter_In in Hb as [Hb Heq].
    split; [by apply list_elem_of_In | by apply Z.eqb_eq]. }
  assert (forall k,
     (forall b, b ∈ binaries (session w) ->
                binary_repo b ∈ List.map repo_id (r :: rs) -> binary_path b <> k) ->
     (forall r' p, r' ∈ r :: rs -> repo_path r' = Some p -> under p k = false) ->
     fs w1 !! k = fs w !! k) as Hfs1'.
  { intros k Hk Hout. apply Hfs1.
    - intros b Hb. apply Hown in Hb as [Hb Heq]. apply Hk; [done|].
      rewrite Heq. apply list_elem_of_here.
    - intros p. apply Hout, list_elem_of_here. }
  assert (forall b, b ∈ binaries (session w) ->
     (forall b', b' ∈ binaries (session w) -> binary_id b' = binary_id b ->
                 binary_repo b' ∉ List.map repo_id (r :: rs)) ->
     b ∈ binaries (session w1)) as Hkeep1.
  { intros b Hb Huniq. apply Hb1. split; [done|]. intros Hin.
    apply list_elem_of_fmap in Hin as (b' & Hid & Hb').
    apply Hown in Hb' as [Hb' Heq].
    apply (Huniq b' Hb'); [done|]. rewrite Heq. apply list_elem_of_here. }
  destruct o1 as [[]|e1].
  2: { rewrite (for_each_cons_raise _ _ _ _ _ _ _ Hstep) in Hrun.
       injection Hrun as <- <- <-. split_and!; try done.
       intros b Hb. by apply Hb1 in Hb as [Hb _]. }
  rewrite (for_each_cons_return _ _ _ _ _ _ Hstep) in Hrun.
  destruct (for_each rs purge_repo w1) as [[o2 w2] t2] eqn:Hrest.
  injection Hrun as <- <- <-.
  destruct (IH _ _ _ _ Hrest) as (Hsub & Hb & Hfs & Hkeep).
  split_and!.
  - intros k n Hk. by apply Hsub1, Hsub.
  - intros b Hin. apply Hb in Hin. by apply Hb1 in Hin as [Hin _].
  - intros k Hk Hout. rewrite <- Hfs1' by done. apply Hfs.
    + intros b Hin Hrs. apply Hb1 in Hin as [Hin _]. apply Hk; [done|].
      by apply list_elem_of_further.
    + intros r' p Hr'. apply Hout. by apply list_elem_of_further.
  - intros b Hin Huniq. apply Hkeep; [by apply Hkeep1|].
    intros b' Hb' Hid Hrs. apply Hb1 in Hb' as [Hb' _].
    apply (Huniq b' Hb' Hid). by apply list_elem_of_further.
Qed.

Lemma purge_repos_world _now w :
  (purge_repos conf _now w).1.2 =
  if purge_disabled conf then w
  else (for_each (List.filter
                    (purge_filter (default (utcnow w) _now - 14 * microseconds_per_day))
                    (repos (session w)))
                 purge_repo w).1.2.
Proof.
  destruct (purge_disabled conf) eqn:Hen.
  - unfold purge_repos. by rewrite Hen.
  - rewrite purge_repos_unfold by done.
    change (timedelta_weeks 2) with (14 * microseconds_per_day). simpl.
    by destruct (for_each _ purge_repo w) as [[[[]|e] w1] t1].
Qed.

Lemma unique_key {A} (f : A -> Z) (l : list A) x y :
  NoDup (List.map f l) -> x ∈ l -> y ∈ l -> f x = f y -> x = y.
Proof.
  induction l as [|a l IH]; simpl; intros Hnd Hx Hy Heq.
  { by apply elem_of_nil in Hx. }
  apply NoDup_cons in Hnd as [Hfresh Hnd].
  apply elem_of_cons in Hx as [->|Hx]; apply elem_of_cons in Hy as [->|Hy]; try done.
  - exfalso. apply Hfresh. rewrite Heq. by apply list_elem_of_fmap_2.
  - exfalso. apply Hfresh. rewrite <- Heq. by apply list_elem_of_fmap_2.
  - by apply IH.
Qed.

(** X11. Whatever the outcome of a run, the purger creates nothing on
    disk, and a path that is neither the file of a Binary of a stale
    Repo nor the storage path of a stale Repo or below it is on disk
    after the run exactly as before. *)
Theorem purge_keeps_unrelated_files _now w :
  let boundary := default (utcnow w) _now - 14 * microseconds_per_day in
  let w' := (purge_repos conf _now w).1.2 in
  (forall k n, fs w' !! k = Some n -> fs w !! k = Some n) /\
  (forall k,
     (forall b r, b ∈ binaries (session w) -> r ∈ repos (session w) ->
                  binary_repo b = repo_id r -> modified r < boundary ->
                  binary_path b <> k) ->
     (forall r p, r ∈ repos (session w) -> modified r < boundary ->
                  repo_path r = Some p -> under p k = false) ->
     fs w' !! k = fs w !! k).
Proof.
  intros boundary w'. subst w'. rewrite purge_repos_world. fold boundary.
  destruct (purge_disabled conf); [done|].
  set (rs := List.filter (purge_filter boundary) (repos (session w))).
  assert (forall r, r ∈ rs -> r ∈ repos (session w) /\ modified r < boundary) as Hsel.
  { intros r Hr. apply list_elem_of_In, List.filter_In in Hr as [Hr Hst].
    split; [by apply list_elem_of_In | by apply Z.ltb_lt]. }
  destruct (for_each rs purge_repo w) as [[o w1] t1] eqn:Hloop. simpl.
  destruct (purge_loop_frame _ _ _ _ _ Hloop) as (Hsub & _ & Hfs & _).
  split; [done|]. intros k Hfiles Hdirs. apply Hfs.
  - intros b Hb Hown. apply list_elem_of_fmap in Hown as (r & Hid & Hr).
    apply Hsel in Hr as [Hr Hst]. by apply (Hfiles b r).
  - intros r p Hr. apply Hsel in Hr as [Hr Hst]. by apply Hdirs.
Qed.

(** X12. With unique Binary keys, a Binary that no stale Repo owns keeps
    its row through a run, whatever the outcome of the run. *)
Theorem purge_keeps_other_binaries _now w b :
  let boundary := default (utcnow w) _now - 14 * microseconds_per_day in
  NoDup (List.map binary_id (binaries (session w))) ->
  b ∈ binaries (session w) ->
  (forall r, r ∈ repos (session w) -> repo_id r = binary_repo b ->
             boundary <= modified r) ->
  b ∈ binaries (session (purge_repos conf _now w).1.2).
Proof.
  intros boundary Hnd Hb Hfresh. rewrite purge_repos_world. fold boundary.
  destruct (purge_disabled conf); [done|].
  set (rs := List.filter (purge_filter boundary) (repos (session w))).
  destruct (for_each rs purge_repo w) as [[o w1] t1] eqn:Hloop. simpl.
  destruct (purge_loop_frame _ _ _ _ _ Hloop) as (_ & _ & _ & Hkeep).
  apply Hkeep; [done|]. intros b' Hb' Hid Hown.
  assert (b' = b) as -> by (by apply (unique_key binary_id (binaries (session w)))).
  apply list_elem_of_fmap in Hown as (r & Hr & Hin).
  apply list_elem_of_In, List.filter_In in Hin as [Hin Hst].
  apply Z.ltb_lt in Hst. apply list_elem_of_In in Hin.
  specialize (Hfresh r Hin (eq_sym Hr)). lia.
Qed.

(** X13. Only the value [False] (or no value) switches the purge off:
    with any other value of the option, [None], [0] and the empty
    string included, the run is the one made with [True]. *)
Theorem purge_only_False_disables (conf' : Conf) v _now w :
  conf_purge_repos conf = Some v -> v <> PyBool false ->
  conf_purge_repos conf' = Some (PyBool true) ->
  purge_repos conf _now w = purge_repos conf' _now w.
Proof.
  intros Hv Hne Htrue.
  rewrite (purge_repos_unfold conf), (purge_repos_unfold conf'); [done | |].
  - unfold purge_disabled. by rewrite Htrue.
  - unfold purge_disabled. rewrite Hv. simpl. by destruct v as [|[]| |].
Qed.

End PurgeRuns.

(** * More of the notifier *)

Section CallbackRuns.

Variable conf : Conf.
Variable pydict : Type.
Variable json_dumps : pydict -> string + exn.
Variable requests_post : request -> send_result.

(** X14. The only run that leaves no trace is the one without an
    endpoint (no URL given, none configured or an empty one): it
    returns [None] and changes nothing; every other run logs at
    least the URL it is about to use. *)
Theorem callback_silent_iff_no_endpoint self data project_name url w :
  let run := callback conf pydict json_dumps requests_post self data project_name url w in
  (run.2 = [] <-> url = None /\ truthy (callback_url conf) = false) /\
  (run.2 = [] -> run.1.1 = Return RNone /\ run.1.2 = w).
Proof.
  intros run. subst run.
  destruct (callback_run_cases conf pydict json_dumps requests_post self data project_name url w)
    as [(-> & Hurl & Hrun) | [(Hurl & _ & Hrun) | (user & key & Hurl & Hu & Hk)]].
  - rewrite Hrun. simpl. by split.
  - rewrite Hrun. simpl. split; [|done]. split; [done|].
    intros [-> Hno]. destruct Hurl as [[? [=]] | Hyes]. congruence.
  - assert ((callback conf pydict json_dumps requests_post self data project_name url w).2
            <> []) as Hne.
    { rewrite (callback_deliverable conf pydict json_dumps requests_post self data project_name url user key w Hurl Hu Hk).
      destruct (body_of json_dumps data) as [body|e]; [|by destruct e].
      destruct (requests_post _) as [st|?]; [|done].
      destruct ((400 <=? st) && (st <? 600)); [|done].
      by destruct (called_directly self || (max_retries <? request_retries self + 1)%nat). }
    split; [|done]. split; [done|].
    intros [-> Hno]. destruct Hurl as [[? [=]] | Hyes]. congruence.
Qed.

(** X15. The task returns [False] exactly when it has an endpoint and
    either a credential is missing or the payload makes [json.dumps]
    raise [TypeError]; in that case nothing was sent and no retry was
    asked for. *)
Theorem callback_returns_False_iff self data project_name url w :
  let run := callback conf pydict json_dumps requests_post self data project_name url w in
  (run.1.1 = Return RFalse <->
   (is_Some url \/ truthy (callback_url conf) = true) /\
   (callback_user conf = None \/ callback_key conf = None \/
    body_of json_dumps data = inr TypeError)) /\
  (run.1.1 = Return RFalse -> posts run.2 = [] /\ retries run.2 = []).
Proof.
  intros run. subst run.
  destruct (callback_run_cases conf pydict json_dumps requests_post self data project_name url w)
    as [(-> & Hurl & Hrun) | [(Hurl & Hc & Hrun) | (user & key & Hurl & Hu & Hk)]].
  - rewrite Hrun. simpl. split; [|done]. split; [done|].
    intros [[[? [=]] | Hyes] _]. congruence.
  - rewrite Hrun. simpl. split; [|done]. split; [|done].
    intros _. split; [done|]. tauto.
  - rewrite (callback_deliverable conf pydict json_dumps requests_post self data project_name url user key w Hurl Hu Hk).
    assert (forall e, body_of json_dumps data = inr e ->
              (callback_user conf = None \/ callback_key conf = None \/
               inr e = @inr string exn TypeError) -> e = TypeError) as Hty.
    { intros e _ [H | [H | H]]; congruence. }
    destruct (body_of json_dumps data) as [body|e] eqn:Hbody.
    + destruct (requests_post _) as [st|?].
      * destruct ((400 <=? st) && (st <? 600)); simpl;
          [destruct (called_directly self || (max_retries <? request_retries self + 1)%nat);
           simpl|];
          (split; [|done]); (split; [done|]);
          intros [_ [H | [H | H]]]; congruence.
      * simpl. split; [|done]. split; [done|].
        intros [_ [H | [H | H]]]; congruence.
    + destruct e; simpl; try (split; [|done]; split; [done|];
        intros [_ H]; by specialize (Hty _ eq_refl H)).
      split; [|done]. split; [|done]. intros _. split; [done|]. tauto.
Qed.

(** X16. A run sends at most one request, and [rq] is sent exactly when
    there is an endpoint, both credentials are configured, the payload
    has a body (a string as it is, a dictionary through [json.dumps])
    and [rq] is the POST of that body to the endpoint, with the
    credentials as basic authentication, the configured TLS
    verification ([True] when unset) and the JSON content type as its
    only header. *)
Theorem callback_sends_one_request self data project_name url w rq :
  let run := callback conf pydict json_dumps requests_post self data project_name url w in
  (length (posts run.2) <= 1)%nat /\
  (rq ∈ posts run.2 <->
   (is_Some url \/ truthy (callback_url conf) = true) /\
   exists user key body,
     callback_user conf = Some user /\ callback_key conf = Some key /\
     body_of json_dumps data = inl body /\
     rq = Request (endpoint conf project_name url) body (user, key)
                  (default true (callback_verify_ssl conf))
                  [("Content-type", "application/json")]).
Proof.
  intros run. unfold run. rewrite callback_posts.
  assert (url = None /\ truthy (callback_url conf) = false \/
          (is_Some url \/ truthy (callback_url conf) = true)) as [[-> Hurl] | Hurl].
  { destruct url as [u|]; [right; left; by eexists|].
    destruct (truthy (callback_url conf)); [right; by right | by left]. }
  { rewrite Hurl. simpl. split; [lia|]. split; [by intros H%elem_of_nil|].
    intros [[[? [=]] | Hyes] _]. congruence. }
  assert (match url, truthy (callback_url conf) with
          | None, false => []
          | _, _ =>
              match callback_user conf, callback_key conf, body_of json_dumps data with
              | Some user, Some key, inl body =>
                  [Request (endpoint conf project_name url) body (user, key)
                           (default true (callback_verify_ssl conf))
                           [("Content-type", "application/json")]]
              | _, _, _ => []
              end
          end =
          match callback_user conf, callback_key conf, body_of json_dumps data with
          | Some user, Some key, inl body =>
              [Request (endpoint conf project_name url) body (user, key)
                       (default true (callback_verify_ssl conf))
                       [("Content-type", "application/json")]]
          | _, _, _ => []
          end) as ->.
  { destruct url as [u|]; [done|]. destruct Hurl as [[? [=]] | ->]. done. }
  destruct (callback_user conf) as [user|]; [destruct (callback_key conf) as [key|];
    [destruct (body_of json_dumps data) as [body|e]|]|]; simpl.
  - split; [lia|]. rewrite list_elem_of_singleton. split.
    + intros ->. split; [done|]. by exists user, key, body.
    + intros (_ & u' & k' & b' & [= <-] & [= <-] & [= <-] & ->). done.
  - split; [lia|]. split; [by intros H%elem_of_nil|].
    by intros (_ & u' & k' & b' & _ & _ & [=] & _).
  - split; [lia|]. split; [by intros H%elem_of_nil|].
    by intros (_ & u' & k' & b' & _ & [=] & _).
  - split; [lia|]. split; [by intros H%elem_of_nil|].
    by intros (_ & u' & k' & b' & [=] & _).
Qed.

(** X17. An exception that leaves the task is one of three: [Retry]
    around the HTTP error of the response, when the task runs in a
    worker and has been retried fewer than 3 times; the HTTP error
    itself, when it was called directly or has been retried 3 times; or
    what [json.dumps]
    raised beside [TypeError].  A transport failure of the POST never
    leaves the task. *)
Theorem callback_raises_only self e data project_name url w :
  (callback conf pydict json_dumps requests_post self data project_name url w).1.1 = Raise e ->
  (exists st, 400 <= st < 600 /\
     ((e = Retry (HTTPError st) /\
       called_directly self = false /\ (request_retries self < 3)%nat) \/
      (e = HTTPError st /\
       (called_directly self = true \/ (3 <= request_retries self)%nat)))) \/
  (body_of json_dumps data = inr e /\ e <> TypeError).
Proof.
  destruct (callback_run_cases conf pydict json_dumps requests_post self data project_name url w)
    as [(-> & Hurl & Hrun) | [(Hurl & Hc & Hrun) | (user & key & Hurl & Hu & Hk)]].
  - by rewrite Hrun.
  - by rewrite Hrun.
  - rewrite (callback_deliverable conf pydict json_dumps requests_post self data project_name url user key w Hurl Hu Hk).
    destruct (body_of json_dumps data) as [body|e0] eqn:Hbody.
    + destruct (requests_post _) as [st|?]; [|done].
      destruct ((400 <=? st) && (st <? 600)) eqn:Hst; [|done].
      apply andb_true_iff in Hst as [H1 H2].
      apply Z.leb_le in H1. apply Z.ltb_lt in H2.
      destruct (called_directly self) eqn:Hdirect; simpl;
        [|destruct (max_retries <? request_retries self + 1)%nat eqn:Hcap; simpl].
      all: unfold max_retries in *.
      * intros [= <-]. left. exists st. split; [lia|]. right. split; [done | by left].
      * intros [= <-]. left. exists st. split; [lia|]. right. split; [done|].
        right. apply Nat.ltb_lt in Hcap. lia.
      * intros [= <-]. left. exists st. split; [lia|]. left. split_and!; [done | done |].
        apply Nat.ltb_ge in Hcap. lia.
    + destruct e0; simpl; intros [= <-]; right; by split.
Qed.

Lemma ends_with_sep_snoc s : ends_with_sep (s +:+ "/") = true.
Proof.
  induction s as [|c s IH]; [done|].
  change (ends_with_sep (String c (s +:+ "/")) = true).
  destruct s as [|c' s]; [done|].
  change (String c' s +:+ "/") with (String c' (s +:+ "/")) in *.
  exact IH.
Qed.

Lemma append_empty_r s : s +:+ "" = s.
Proof.
  induction s as [|c s IH]; [done|].
  change (String c (s +:+ "") = String c s). by rewrite IH.
Qed.

Lemma path_join2_trailing x : x <> "" -> ends_with_sep (path_join2 x "") = true.
Proof.
  intros Hne. unfold path_join2. simpl.
  destruct (String.eqb_spec x ""); [done|]. simpl.
  destruct (ends_with_sep x) eqn:Hsep.
  - by rewrite append_empty_r.
  - apply ends_with_sep_snoc.
Qed.

Lemma path_join2_nonempty x b : x <> "" -> path_join2 x b <> "".
Proof.
  intros Hne. unfold path_join2.
  destruct (String.prefix "/" b) eqn:Hb.
  - intros ->. done.
  - destruct x as [|c x]; [done|].
    by destruct (String.eqb (String c x) "" || ends_with_sep (String c x)).
Qed.

(** X18. When no URL is given, the request goes to a URL that ends
    with a slash: the configured URL joined with the project name and
    an empty last component. *)
Theorem callback_default_url_ends_with_slash self data project_name w rq :
  rq ∈ posts (callback conf pydict json_dumps requests_post self data project_name None w).2 ->
  ends_with_sep (req_url rq) = true.
Proof.
  rewrite callback_posts.
  destruct (truthy (callback_url conf)) eqn:Hurl; [|by intros H%elem_of_nil].
  destruct (callback_user conf) as [user|]; [|by intros H%elem_of_nil].
  destruct (callback_key conf) as [key|]; [|by intros H%elem_of_nil].
  destruct (body_of json_dumps data) as [body|e]; [|by intros H%elem_of_nil].
  intros ->%list_elem_of_singleton. simpl.
  apply path_join2_trailing, path_join2_nonempty.
  destruct (callback_url conf) as [cb|]; [|done]. simpl in *.
  intros ->. done.
Qed.

End CallbackRuns.

(** * The further properties on the scenarios *)

Lemma poll_noop_when_all_busy_witness :
  poll_repos Scenario.conf Scenario.infer_type Scenario.only_busy =
  (Return tt, Scenario.only_busy,
   [Log INFO "polling repos...."; Log INFO "completed repo polling"]).
Proof.
  apply (poll_noop_when_all_busy Scenario.conf Scenario.infer_type Scenario.only_busy).
  intros r Hr _ _. apply list_elem_of_singleton in Hr as ->. reflexivity.
Defined.

Lemma poll_leaves_settled_alone_witness :
  let r := set_is_queued true Scenario.rpm_repo in
  let run := poll_repos Scenario.conf Scenario.infer_type Scenario.first_cycle.1.2 in
  find_repo 2 (session run.1.2) = Some r /\
  jobs_for 2 run.2 = [] /\
  forall s, notified s 2 run.2 = 0%nat.
Proof.
  apply (poll_leaves_settled_alone Scenario.conf Scenario.infer_type
           (set_is_queued true Scenario.rpm_repo) Scenario.first_cycle.1.2).
  - by_decide.
  - by_decide.
  - left. reflexivity.
Defined.

Lemma purge_noop_when_nothing_stale_witness :
  purge_repos Scenario.conf None Scenario.only_busy =
  (Return tt, Scenario.only_busy,
   [Log INFO "polling repos for purging...."; Log INFO "completed repo purging"]).
Proof.
  apply (purge_noop_when_nothing_stale Scenario.conf None Scenario.only_busy).
  - reflexivity.
  - intros r Hr. apply list_elem_of_singleton in Hr as ->. discriminate.
Defined.

Lemma purge_again_is_noop_witness :
  purge_repos Scenario.conf None Scenario.purge.1.2 =
  (Return tt, Scenario.purge.1.2,
   [Log INFO "polling repos for purging...."; Log INFO "completed repo purging"]).
Proof.
  apply (purge_again_is_noop Scenario.conf None Scenario.initial
           Scenario.purge.1.2 Scenario.purge.2).
  - reflexivity.
  - vm_compute. reflexivity.
Defined.

Lemma purge_abort_keeps_earlier_purges_witness :
  let run := purge_repos Scenario.conf None Scenario.missing_dir in
  exists done r rest errno,
    [Scenario.deb_to_infer; Scenario.rpm_repo] = done ++ r :: rest /\
    OSError ENOENT = OSError errno /\
    (forall x, x ∈ done ->
       find_repo (repo_id x) (session run.1.2) = None /\
       find_repo (repo_id x) (stored run.1.2) = None /\
       notified "deleted" (repo_id x) run.2 = 1%nat) /\
    (forall x, x ∈ r :: rest ->
       x ∈ repos (session run.1.2) /\ notified "deleted" (repo_id x) run.2 = 0%nat) /\
    binaries_of (repo_id r) (session run.1.2) = [].
Proof.
  apply (purge_abort_keeps_earlier_purges Scenario.conf None Scenario.missing_dir
           (OSError ENOENT)).
  - reflexivity.
  - by_decide.
  - vm_compute. reflexivity.
Defined.

Lemma purge_keeps_unrelated_files_witness :
  fs Scenario.purge.1.2 !! "/repos/3" = Some Dir.
Proof.
  destruct (purge_keeps_unrelated_files Scenario.conf None Scenario.initial) as [_ Hkeep].
  change (fs Scenario.purge.1.2 !! "/repos/3" = fs Scenario.initial !! "/repos/3").
  apply Hkeep.
  - intros b r Hb _ _ _.
    repeat (apply elem_of_cons in Hb as [-> | Hb]); try discriminate.
    by apply elem_of_nil in Hb.
  - intros r p Hr Hstale Hp.
    repeat (apply elem_of_cons in Hr as [-> | Hr]); try discriminate.
    + injection Hp as <-. reflexivity.
    + by apply elem_of_nil in Hr.
Defined.

Lemma purge_keeps_other_binaries_witness :
  Scenario.fresh_binary ∈
    binaries (session (purge_repos Scenario.conf None Scenario.mixed).1.2).
Proof.
  apply (purge_keeps_other_binaries Scenario.conf None Scenario.mixed Scenario.fresh_binary).
  - by_decide.
  - by_decide.
  - intros r Hr Hid.
    repeat (apply elem_of_cons in Hr as [-> | Hr]); try discriminate.
    by apply elem_of_nil in Hr.
Defined.

Lemma purge_only_False_disables_witness :
  purge_repos Scenario.conf_purge_none None Scenario.initial =
  purge_repos Scenario.conf None Scenario.initial.
Proof.
  apply (purge_only_False_disables Scenario.conf_purge_none Scenario.conf PyNone).
  - reflexivity.
  - discriminate.
  - reflexivity.
Defined.

Lemma callback_raises_only_witness :
  (exists st, 400 <= st < 600 /\
     ((HTTPError 503 = Retry (HTTPError st) /\
       called_directly Scenario.last_attempt = false /\
       (request_retries Scenario.last_attempt < 3)%nat) \/
      (HTTPError 503 = HTTPError st /\
       (called_directly Scenario.last_attempt = true \/
        (3 <= request_retries Scenario.last_attempt)%nat)))) \/
  (body_of Scenario.json_dumps (DictData (Some "{}")) = inr (HTTPError 503) /\
   HTTPError 503 <> TypeError).
Proof.
  apply (callback_raises_only Scenario.conf (option string) Scenario.json_dumps
           Scenario.unavailable Scenario.last_attempt (HTTPError 503)
           (DictData (Some "{}")) "ceph" None Scenario.initial).
  reflexivity.
Defined.

Lemma callback_default_url_ends_with_slash_witness :
  ends_with_sep "http://ci.example/callbacks/ceph/" = true.
Proof.
  apply (callback_default_url_ends_with_slash Scenario.conf (option string)
           Scenario.json_dumps Scenario.unavailable Scenario.first_attempt
           (StrData "{}") "ceph" Scenario.initial
           (Request "http://ci.example/callbacks/ceph/" "{}" ("admin", "secret") true
                    [("Content-type", "application/json")])).
  vm_compute. apply list_elem_of_here.
Defined.
